(** * game-churn-prediction: activity standardization and windowed features

    A shallow embedding of [game_churn/features/engineer.py],
    [game_churn/features/standardize.py], [game_churn/features/build.py] and
    [game_churn/utils/config.py], followed by the properties of the feature
    engine that the specification states about them.

    Conventions of the embedding:
    - a Python [int] is a [Z]; a Python [float] is an exact rational [Q]
      (binary rounding error, NaN and the infinities are not represented);
    - a timezone-aware [datetime] is the number of microseconds since the
      epoch, a [timedelta] a number of microseconds;
    - a [dict] with string keys is a [gmap string _];
    - a polars [DataFrame] of activities is the list of its rows;
    - an exception is a value of [exn] carried by [pyresult]. *)

From Stdlib Require Import ZArith QArith Qround Qminmax Lia Lqa Ascii String.
From stdpp Require Import gmap strings list sorting pretty.

Set Warnings "-register-all".
Local Open Scope Z_scope.

(** ** Python values, exceptions and arithmetic *)

Module Py.

Inductive exn :=
| TypeError
| AttributeError
| ZeroDivisionError
| ValueError
| FileNotFoundError
| JSONDecodeError
| ValidationError.

Inductive pyresult (A : Type) :=
| Ok (a : A)
| Raise (e : exn).
Arguments Ok {A} a.
Arguments Raise {A} e.

Definition bind {A B} (m : pyresult A) (k : A → pyresult B) : pyresult B :=
  match m with
  | Ok a => k a
  | Raise e => Raise e
  end.

(** The scalar values a feature mapping holds. *)
Inductive value :=
| VNone
| VBool (b : bool)
| VInt (z : Z)
| VFloat (q : Q)
| VStr (s : string).

(** The number a value stands for in arithmetic and comparisons with numbers;
    [None] and strings raise [TypeError] there, [bool] is a subtype of [int]. *)
Definition as_num (v : value) : pyresult Q :=
  match v with
  | VInt z => Ok (inject_Z z)
  | VFloat q => Ok q
  | VBool b => Ok (if b then 1%Q else 0%Q)
  | VNone | VStr _ => Raise TypeError
  end.

(** [d.get(k, default)]. *)
Definition dict_get (d : gmap string value) (k : string) (dflt : value) : value :=
  default dflt (d !! k).

(** [x / y] on numbers. *)
Definition truediv (x y : Q) : pyresult Q :=
  if Qeq_bool y 0 then Raise ZeroDivisionError else Ok (x / y)%Q.

(** Rounding to the nearest integer, ties to the even neighbour. *)
Definition round_half_even (x : Q) : Z :=
  let f := Qfloor x in
  match ((x - inject_Z f) ?= 1 # 2)%Q with
  | Lt => f
  | Gt => f + 1
  | Eq => if Z.even f then f else f + 1
  end.

(** [round(x, ndigits)] for a float [x]. *)
Definition round (x : Q) (ndigits : nat) : Q :=
  let scale := 10 ^ Z.of_nat ndigits in
  (inject_Z (round_half_even (x * inject_Z scale)) / inject_Z scale)%Q.

(** [+] on values, as the builtin [sum] applies it. *)
Definition add (x y : value) : pyresult value :=
  match x, y with
  | VInt a, VInt b => Ok (VInt (a + b))
  | VInt a, VBool b => Ok (VInt (a + Z.b2z b))
  | VBool a, VInt b => Ok (VInt (Z.b2z a + b))
  | VBool a, VBool b => Ok (VInt (Z.b2z a + Z.b2z b))
  | VFloat a, _ => bind (as_num y) (λ b, Ok (VFloat (a + b)%Q))
  | _, VFloat b => bind (as_num x) (λ a, Ok (VFloat (a + b)%Q))
  | _, _ => Raise TypeError
  end.

(** [str.lower()], on ASCII letters. *)
Definition lower_ascii (c : ascii) : ascii :=
  let n := nat_of_ascii c in
  if ((65 <=? n) && (n <=? 90))%nat then ascii_of_nat (n + 32) else c.

Fixpoint lower (s : string) : string :=
  match s with
  | EmptyString => EmptyString
  | String c s' => String (lower_ascii c) (lower s')
  end.

End Py.

#[global] Instance pyresult_ret : MRet Py.pyresult := @Py.Ok.
#[global] Instance pyresult_bind : MBind Py.pyresult := λ A B k m, Py.bind m k.

(** ** Decoded JSON documents and the raw data store *)

Module Json.

Inductive json :=
| JNull
| JBool (b : bool)
| JInt (z : Z)
| JFloat (q : Q)
| JStr (s : string)
| JList (items : list json)
| JObj (members : list (string * json)).

(** [d.get(k)] on a decoded object: of two members with one key, [json.loads]
    keeps the later one. *)
Fixpoint obj_get (k : string) (members : list (string * json)) : option json :=
  match members with
  | [] => None
  | (k', v) :: rest =>
      match obj_get k rest with
      | Some v' => Some v'
      | None => if String.eqb k k' then Some v else None
      end
  end.

(** Truth value of a decoded document, as [if x] tests it. *)
Definition truthy (j : json) : bool :=
  match j with
  | JNull => false
  | JBool b => b
  | JInt z => negb (z =? 0)
  | JFloat q => negb (Qeq_bool q 0)
  | JStr s => negb (String.eqb s "")
  | JList l => match l with [] => false | _ => true end
  | JObj m => match m with [] => false | _ => true end
  end.

(** The scalar a document decodes to; lists and objects are no scalars. *)
Definition to_value (j : json) : option Py.value :=
  match j with
  | JNull => Some Py.VNone
  | JBool b => Some (Py.VBool b)
  | JInt z => Some (Py.VInt z)
  | JFloat q => Some (Py.VFloat q)
  | JStr s => Some (Py.VStr s)
  | JList _ | JObj _ => None
  end.

(** What [json.loads(path.read_text())] makes of a stored file: the text is
    either no JSON document, and [json.loads] raises, or it decodes. *)
Inductive file_text :=
| NotJson (text : string)
| JsonText (doc : json).

(** The raw data directory: the regular files that exist, by path. *)
Abbreviation store := (gmap string file_text).

Definition exists_ (fs : store) (path : string) : bool :=
  bool_decide (is_Some (fs !! path)).

End Json.

(** ** [game_churn/features/schema.py] *)

Module Schema.

(** One standardized game of one player; [game_timestamp] in microseconds. *)
Record PlayerActivity := {
  player_id : string;
  platform : string;
  game_timestamp : Z;
  duration_seconds : Z;
  result : string;
  rating : option Z;
  game_mode : string
}.

(** Validation of the two fields that [standardize_chess_com] fills from raw
    documents: [rating: int | None] and [game_mode: str]. What the validators
    make of other shapes (numeric strings, integral floats) is theirs to say. *)
Class Validation := {
  int_or_none : Json.json → Py.pyresult (option Z);
  str_field : Json.json → Py.pyresult string
}.


(** [PlayerActivity(...)] with the rating and the game mode still raw. *)
Definition PlayerActivity_new `{Validation} (pid plat : string) (ts dur : Z)
    (res : string) (raw_rating raw_mode : Json.json) : Py.pyresult PlayerActivity :=
  r ← int_or_none raw_rating;
  mode ← str_field raw_mode;
  mret {| player_id := pid; platform := plat; game_timestamp := ts;
          duration_seconds := dur; result := res; rating := r;
          game_mode := mode |}.

End Schema.

(** ** [game_churn/utils/config.py] *)

Module Config.
Import Py.

Record Settings := {
  riot_api_key : string;
  rawg_api_key : string;
  churn_threshold_days : Z;
  request_timeout : Z;
  max_retries : Z
}.

(** The text of an environment variable bound to an [int] field, as the
    field's validation reads it: it denotes an integer, or it does not. *)
Inductive int_text :=
| IsInt (z : Z)
| NotInt (text : string).

(** The variables with prefix [GAME_CHURN_] that are set, in the process
    environment or in the [.env] file. *)
Record environ := {
  GAME_CHURN_RIOT_API_KEY : option string;
  GAME_CHURN_RAWG_API_KEY : option string;
  GAME_CHURN_CHURN_THRESHOLD_DAYS : option int_text;
  GAME_CHURN_REQUEST_TIMEOUT : option int_text;
  GAME_CHURN_MAX_RETRIES : option int_text
}.

(** An [int] field declared [Field(default=dflt)]: no bound is declared. *)
Definition int_field (dflt : Z) (var : option int_text) : pyresult Z :=
  match var with
  | None => Ok dflt
  | Some (IsInt z) => Ok z
  | Some (NotInt _) => Raise ValidationError
  end.

(** [Settings()], as the module evaluates it when it is first imported. *)
Definition Settings_new (env : environ) : pyresult Settings :=
  threshold ← int_field 14 (GAME_CHURN_CHURN_THRESHOLD_DAYS env);
  timeout ← int_field 30 (GAME_CHURN_REQUEST_TIMEOUT env);
  retries ← int_field 3 (GAME_CHURN_MAX_RETRIES env);
  mret {| riot_api_key := default "" (GAME_CHURN_RIOT_API_KEY env);
          rawg_api_key := default "" (GAME_CHURN_RAWG_API_KEY env);
          churn_threshold_days := threshold;
          request_timeout := timeout;
          max_retries := retries |}.

(** [RAW_DIR = PROJECT_ROOT / "data" / "01_raw"]. *)
Definition RAW_DIR (PROJECT_ROOT : string) : string :=
  PROJECT_ROOT +:+ "/data/01_raw".

End Config.

(** ** [game_churn/features/engineer.py] *)

Module Engineer.
Import Py Json Schema Config.

Definition usec_per_day : Z := 86400 * 1000000.

(** [timedelta(days=d)]. *)
Definition timedelta_days (d : Z) : Z := d * usec_per_day.

(** [td.total_seconds()]. *)
Definition total_seconds (td : Z) : Q := (inject_Z td / 1000000)%Q.

(** [dt.date()] of a UTC instant, as a day number. *)
Definition date_of (ts : Z) : Z := ts `div` usec_per_day.

(** [reference_date or datetime.now(tz=UTC)]; [now] is what the clock reads. *)
Definition ref_or_now (reference_date : option Z) (now : Z) : Z :=
  default now reference_date.

(** [df.filter((player_id == ...) & (platform == ...))]. *)
Definition player_rows (df : list PlayerActivity) (pid plat : string)
  : list PlayerActivity :=
  filter (λ a, player_id a = pid ∧ platform a = plat) df.

(** [df.filter(game_timestamp >= cutoff)]. *)
Definition since (cutoff : Z) (df : list PlayerActivity) : list PlayerActivity :=
  filter (λ a, cutoff ≤ game_timestamp a) df.

(** [df["duration_seconds"].sum()]. *)
Definition sum_durations (df : list PlayerActivity) : Z :=
  foldr (λ a acc, duration_seconds a + acc) 0 df.

(** Number of distinct calendar days among the rows. *)
Definition n_unique_days (df : list PlayerActivity) : nat :=
  length (remove_dups (date_of ∘ game_timestamp <$> df)).

Definition _empty_features (pid plat : string) : gmap string value :=
  <["max_gap_days_30d" := VFloat 30]>
  (<["avg_daily_sessions_30d" := VFloat 0]>
  (<["avg_daily_sessions_14d" := VFloat 0]>
  (<["avg_daily_sessions_7d" := VFloat 0]>
  (<["playtime_30d_hours" := VFloat 0]>
  (<["playtime_14d_hours" := VFloat 0]>
  (<["playtime_7d_hours" := VFloat 0]>
  (<["games_30d" := VInt 0]>
  (<["games_14d" := VInt 0]>
  (<["games_7d" := VInt 0]>
  (<["platform" := VStr plat]>
  (<["player_id" := VStr pid]> ∅))))))))))).

(** One turn of the loop over [(7, "7d"), (14, "14d"), (30, "30d")]. *)
Definition window_step (ref : Z) (player_df : list PlayerActivity)
    (features : gmap string value) (w : Z * string) : gmap string value :=
  let '(window_days, suffix) := w in
  let cutoff := ref - timedelta_days window_days in
  let window_df := since cutoff player_df in
  let game_count := length window_df in
  let features := <["games_" +:+ suffix := VInt (Z.of_nat game_count)]> features in
  let playtime_hours := (inject_Z (sum_durations window_df) / 3600)%Q in
  let features :=
    <["playtime_" +:+ suffix +:+ "_hours" := VFloat (round playtime_hours 2)]> features in
  if (0 <? game_count)%nat then
    let unique_days := n_unique_days window_df in
    <["avg_daily_sessions_" +:+ suffix :=
        VFloat (round (inject_Z (Z.of_nat unique_days) / inject_Z window_days) 3)]> features
  else
    <["avg_daily_sessions_" +:+ suffix := VFloat 0]> features.

Definition windows : list (Z * string) := [(7, "7d"); (14, "14d"); (30, "30d")].

(** Gaps in days between consecutive timestamps. *)
Fixpoint gaps (timestamps : list Z) : list Q :=
  match timestamps with
  | t0 :: (t1 :: _) as rest => (total_seconds (t1 - t0) / 86400)%Q :: gaps rest
  | _ => []
  end.

(** [max] of a non-empty sequence, [x] its first item. *)
Definition max_of (x : Q) (xs : list Q) : Q :=
  foldl (λ m y, if Qlt_le_dec m y then y else m) x xs.

Section with_sort.

(** [df.sort("game_timestamp")] on rows of any shape, [key] reading the
    timestamp of a row. polars does not promise the order of rows with equal
    keys, so the sort is whatever function the engine provides. *)
Variable sort_by : ∀ A : Type, (A → Z) → list A → list A.

Definition compute_time_window_features (now : Z) (df : list PlayerActivity)
    (pid plat : string) (reference_date : option Z) : gmap string value :=
  let ref := ref_or_now reference_date now in
  let player_df := player_rows df pid plat in
  match player_df with
  | [] => _empty_features pid plat
  | _ =>
      let features := <["platform" := VStr plat]> (<["player_id" := VStr pid]> ∅) in
      let features := foldl (window_step ref player_df) features windows in
      let cutoff_30 := ref - timedelta_days 30 in
      let recent := sort_by _ game_timestamp (since cutoff_30 player_df) in
      if (2 <=? length recent)%nat then
        match gaps (game_timestamp <$> recent) with
        | g :: gs => <["max_gap_days_30d" := VFloat (round (max_of g gs) 2)]> features
        | [] => features (* two rows leave a gap: not reached *)
        end
      else <["max_gap_days_30d" := VFloat 30]> features
  end.

(** One trend ratio: [round(num / den, 3) if den > 0 else 0.0]. *)
Definition trend_ratio (num den : value) : pyresult value :=
  d ← as_num den;
  if Qlt_le_dec 0 d then
    n ← as_num num;
    q ← truediv n d;
    mret (VFloat (round q 3))
  else mret (VFloat 0).

Definition compute_trend_features (features : gmap string value)
  : pyresult (gmap string value) :=
  let games_7d := dict_get features "games_7d" (VInt 0) in
  let games_14d := dict_get features "games_14d" (VInt 0) in
  t ← trend_ratio games_7d games_14d;
  let features := <["games_trend_7d_vs_14d" := t]> features in
  let pt_7d := dict_get features "playtime_7d_hours" (VFloat 0) in
  let pt_14d := dict_get features "playtime_14d_hours" (VFloat 0) in
  t ← trend_ratio pt_7d pt_14d;
  mret (<["playtime_trend_7d_vs_14d" := t]> features).

(** One turn of the loop over [(7, "7d"), (30, "30d")]. *)
Definition win_rate_step (ref : Z) (player_df : list PlayerActivity)
    (features : gmap string value) (w : Z * string) : gmap string value :=
  let '(window_days, suffix) := w in
  let cutoff := ref - timedelta_days window_days in
  let window_df := since cutoff player_df in
  let total := length window_df in
  if (0 <? total)%nat then
    let wins := length (filter (λ a, result a = "win") window_df) in
    <["win_rate_" +:+ suffix :=
        VFloat (round (inject_Z (Z.of_nat wins) / inject_Z (Z.of_nat total)) 3)]> features
  else <["win_rate_" +:+ suffix := VFloat 0]> features.

(** The rows of [df.filter(rating.is_not_null())], as pairs of a timestamp
    and the rating that is there. *)
Definition with_rating (player_df : list PlayerActivity) : list (Z * Z) :=
  omap (λ a, r ← rating a; Some (game_timestamp a, r)) player_df.

Definition compute_performance_features (now : Z) (df : list PlayerActivity)
    (pid plat : string) (reference_date : option Z) : gmap string value :=
  let ref := ref_or_now reference_date now in
  let player_df := player_rows df pid plat in
  let features := foldl (win_rate_step ref player_df) ∅ [(7, "7d"); (30, "30d")] in
  let rated := sort_by _ fst (with_rating player_df) in
  match last rated with
  | Some (_, rating_current) =>
      let features := <["rating_current" := VInt rating_current]> features in
      let cutoff_30 := ref - timedelta_days 30 in
      let old_rated := filter (λ r, r.1 ≤ cutoff_30) rated in
      match last old_rated with
      | Some (_, old) => <["rating_change_30d" := VInt (rating_current - old)]> features
      | None => <["rating_change_30d" := VInt 0]> features
      end
  | None =>
      <["rating_change_30d" := VInt 0]> (<["rating_current" := VNone]> features)
  end.

(** [sum(p.get("games", 0) for p in peers)]. *)
Fixpoint sum_peer_games (acc : value) (peers : list json) : pyresult value :=
  match peers with
  | [] => Ok acc
  | JObj members :: rest =>
      match to_value (default (JInt 0) (obj_get "games" members)) with
      | Some games => acc' ← add acc games; sum_peer_games acc' rest
      | None => Raise TypeError
      end
  | _ :: _ => Raise AttributeError
  end.

Definition compute_social_features (PROJECT_ROOT : string) (fs : store)
    (pid : string) (raw_dir : option string) : pyresult (gmap string value) :=
  let base := default (RAW_DIR PROJECT_ROOT) raw_dir +:+ "/opendota" in
  let peers_path := base +:+ "/" +:+ pid +:+ "_peers.json" in
  let features : gmap string value :=
    <["peer_games_30d" := VInt 0]> (<["unique_peers_30d" := VInt 0]> ∅) in
  match fs !! peers_path with
  | None => Ok features
  | Some (NotJson _) => Raise JSONDecodeError
  | Some (JsonText (JList peers)) =>
      let features := <["unique_peers_30d" := VInt (Z.of_nat (length peers))]> features in
      total ← sum_peer_games (VInt 0) peers;
      mret (<["peer_games_30d" := total]> features)
  | Some (JsonText (JObj [])) | Some (JsonText (JStr "")) => Ok features
  | Some (JsonText (JObj _)) | Some (JsonText (JStr _)) => Raise AttributeError
  | Some (JsonText _) => Raise TypeError
  end.

Definition compute_engagement_score (features : gmap string value) : pyresult Q :=
  let score := 0%Q in
  games_30d ← as_num (dict_get features "games_30d" (VInt 0));
  let score := (score + Qmin (games_30d / 2) 30)%Q in
  avg_sessions ← as_num (dict_get features "avg_daily_sessions_30d" (VInt 0));
  let score := (score + Qmin (avg_sessions * 30) 20)%Q in
  trend ← as_num (dict_get features "games_trend_7d_vs_14d" (VFloat 0));
  let score := (score + Qmin (trend * 20) 20)%Q in
  wr ← as_num (dict_get features "win_rate_30d" (VFloat 0));
  let score := (score + wr * 15)%Q in
  peers ← as_num (dict_get features "unique_peers_30d" (VInt 0));
  let score := (score + Qmin (peers / 3) 15)%Q in
  mret (round (Qmin score 100) 2).

(** [df["game_timestamp"].max()] of a frame whose first row is [a]. *)
Definition max_timestamp (a : PlayerActivity) (rest : list PlayerActivity) : Z :=
  foldr (λ b m, Z.max (game_timestamp b) m) (game_timestamp a) rest.

Definition compute_churn_label (settings : Settings) (now : Z)
    (df : list PlayerActivity) (pid plat : string) (reference_date : option Z)
  : gmap string value :=
  let ref := ref_or_now reference_date now in
  let player_df := player_rows df pid plat in
  match player_df with
  | [] => <["churned" := VBool true]> (<["days_since_last_game" := VFloat 999]> ∅)
  | a :: rest =>
      let last_game := max_timestamp a rest in
      let days_since := (total_seconds (ref - last_game) / 86400)%Q in
      let churned := Qle_bool (inject_Z (churn_threshold_days settings)) days_since in
      <["churned" := VBool churned]>
        (<["days_since_last_game" := VFloat (round days_since 2)]> ∅)
  end.

(** [features.update(other)]. *)
Definition update (features other : gmap string value) : gmap string value :=
  other ∪ features.

(** [clock i] is what the [i]-th reading of [datetime.now] during the call
    returns; each of the three dated calculators reads it once when no
    [reference_date] is given. *)
Definition build_features_for_player (PROJECT_ROOT : string) (settings : Settings)
    (fs : store) (clock : nat → Z) (df : list PlayerActivity) (pid plat : string)
    (reference_date : option Z) (raw_dir : option string)
  : pyresult (gmap string value) :=
  let features := compute_time_window_features (clock 0%nat) df pid plat reference_date in
  features ← compute_trend_features features;
  let features :=
    update features (compute_performance_features (clock 1%nat) df pid plat reference_date) in
  features ←
    (if String.eqb plat "opendota" then
       social ← compute_social_features PROJECT_ROOT fs pid raw_dir;
       mret (update features social)
     else
       mret (<["peer_games_30d" := VInt 0]> (<["unique_peers_30d" := VInt 0]> features)));
  score ← compute_engagement_score features;
  let features := <["engagement_score" := VFloat score]> features in
  mret (update features
          (compute_churn_label settings (clock 2%nat) df pid plat reference_date)).

End with_sort.

End Engineer.

(** ** [game_churn/features/standardize.py] *)

Module Standardize.
Import Py Json Schema Config.

Definition _load_json (fs : store) (path : string) : pyresult json :=
  match fs !! path with
  | None => Raise FileNotFoundError
  | Some (NotJson _) => Raise JSONDecodeError
  | Some (JsonText doc) => Ok doc
  end.

(** The instants a [datetime] can hold, in microseconds: years 1 to 9999. *)
Definition datetime_min : Z := -62135596800 * 1000000.
Definition datetime_max : Z := 253402300799 * 1000000 + 999999.

Definition in_datetime_range (usec : Z) : pyresult Z :=
  if (datetime_min <=? usec) && (usec <=? datetime_max) then Ok usec
  else Raise ValueError.

(** [datetime.fromtimestamp(ts, tz=UTC)] for a decoded [ts]. *)
Definition fromtimestamp (ts : json) : pyresult Z :=
  match ts with
  | JInt z => in_datetime_range (z * 1000000)
  | JBool b => Ok (Z.b2z b * 1000000)
  | JFloat q => in_datetime_range (round_half_even (q * 1000000))
  | JNull | JStr _ | JList _ | JObj _ => Raise TypeError
  end.

(** [x.get(k, dflt)] where [x] was read from a document: only an object has
    the method. *)
Definition get (x : json) (k : string) (dflt : json) : pyresult json :=
  match x with
  | JObj members => Ok (default dflt (obj_get k members))
  | _ => Raise AttributeError
  end.

(** [x.lower()] where [x] was read from a document. *)
Definition lower_of (x : json) : pyresult string :=
  match x with
  | JStr s => Ok (lower s)
  | _ => Raise AttributeError
  end.

Definition chess_result (result_str : json) : string :=
  match result_str with
  | JStr "win" => "win"
  | JStr "checkmated" | JStr "timeout" | JStr "resigned" | JStr "abandoned" => "loss"
  | _ => "draw"
  end.

Section with_validation.
Context `{Validation}.

(** The body of the loop of [standardize_chess_com] for one [game]; [clock n]
    is what [datetime.now] returns when it is read next, and the second
    component counts the readings made so far. *)
Definition chess_com_activity (username : string) (clock : nat → Z) (n : nat)
    (game : json) : pyresult (PlayerActivity * nat) :=
  ts ← get game "end_time" (JInt 0);
  '(game_dt, n) ← (if truthy ts then dt ← fromtimestamp ts; mret (dt, n)
                   else mret (clock n, S n));
  white ← get game "white" (JObj []);
  black ← get game "black" (JObj []);
  white_name ← get white "username" (JStr "");
  white_name ← lower_of white_name;
  let is_white := String.eqb white_name (lower username) in
  let player_data := if is_white then white else black in
  result_str ← get player_data "result" (JStr "unknown");
  let res := chess_result result_str in
  raw_rating ← get player_data "rating" JNull;
  time_control ← get game "time_class" (JStr "unknown");
  a ← PlayerActivity_new (lower username) "chess_com" game_dt 0 res raw_rating time_control;
  mret (a, n).

Fixpoint chess_com_loop (username : string) (clock : nat → Z) (n : nat)
    (games : list json) : pyresult (list PlayerActivity) :=
  match games with
  | [] => Ok []
  | game :: rest =>
      '(a, n) ← chess_com_activity username clock n game;
      activities ← chess_com_loop username clock n rest;
      mret (a :: activities)
  end.

(** What [for game in games] iterates over. *)
Definition iterate (games : json) : pyresult (list json) :=
  match games with
  | JList items => Ok items
  | JObj members => Ok (JStr <$> reverse (remove_dups (reverse (fst <$> members))))
  | JStr s => Ok ((λ c, JStr (String c EmptyString)) <$> list_ascii_of_string s)
  | JNull | JBool _ | JInt _ | JFloat _ => Raise TypeError
  end.

Definition standardize_chess_com (PROJECT_ROOT : string) (fs : store)
    (clock : nat → Z) (username : string) (raw_dir : option string)
  : pyresult (list PlayerActivity) :=
  let base := default (RAW_DIR PROJECT_ROOT) raw_dir +:+ "/chess_com" in
  let games_path := base +:+ "/" +:+ lower username +:+ "_games.json" in
  if negb (exists_ fs games_path) then Ok []
  else
    games ← _load_json fs games_path;
    items ← iterate games;
    chess_com_loop username clock 0 items.

End with_validation.

End Standardize.

(** ** [game_churn/features/standardize.py]: OpenDota and Riot *)

Module StandardizeMore.
Import Py Json Schema Config Standardize.

(** What the two standardizers use of the runtime besides [Validation]: the
    validation of [duration_seconds: int], the builtin [str] and [==] on
    decoded values. *)
Class Runtime := {
  validate_int : json → pyresult Z;
  str_of : json → string;
  py_eq : json → json → bool
}.

(** What every runtime does on integers and strings. *)
Class RuntimeLaws `{Runtime} := {
  validate_int_int z : validate_int (JInt z) = Ok z;
  str_of_str s : str_of (JStr s) = s;
  py_eq_str s1 s2 : py_eq (JStr s1) (JStr s2) = String.eqb s1 s2;
  py_eq_null_str s : py_eq JNull (JStr s) = false
}.

(** [x < k] for a decoded [x] and an integer [k]. *)
Definition lt_int (x : json) (k : Z) : pyresult bool :=
  match x with
  | JInt z => Ok (z <? k)
  | JBool b => Ok (Z.b2z b <? k)
  | JFloat q => Ok (negb (Qle_bool (inject_Z k) q))
  | JNull | JStr _ | JList _ | JObj _ => Raise TypeError
  end.

(** [x / 1000] for a decoded [x]. *)
Definition div_1000 (x : json) : pyresult Q :=
  match x with
  | JInt z => Ok (inject_Z z / 1000)%Q
  | JBool b => Ok (inject_Z (Z.b2z b) / 1000)%Q
  | JFloat q => Ok (q / 1000)%Q
  | JNull | JStr _ | JList _ | JObj _ => Raise TypeError
  end.

(** [datetime.fromtimestamp(x, tz=UTC)] for a float [x]. *)
Definition fromtimestamp_float (x : Q) : pyresult Z :=
  in_datetime_range (round_half_even (x * 1000000)).

Section with_runtime.
Context `{Validation} `{Runtime}.

(** The body of the loop of [standardize_opendota] for one [match]; the
    clock is threaded as in [chess_com_activity]. *)
Definition opendota_activity (account_id : string) (clock : nat → Z) (n : nat)
    (match_ : json) : pyresult (PlayerActivity * nat) :=
  start_time ← get match_ "start_time" (JInt 0);
  '(game_dt, n) ← (if truthy start_time then dt ← fromtimestamp start_time; mret (dt, n)
                   else mret (clock n, S n));
  duration ← get match_ "duration" (JInt 0);
  player_slot ← get match_ "player_slot" (JInt 0);
  radiant_win ← get match_ "radiant_win" (JBool false);
  is_radiant ← lt_int player_slot 128;
  let won := (is_radiant && truthy radiant_win)
             || (negb is_radiant && negb (truthy radiant_win)) in
  raw_mode ← get match_ "game_mode" (JStr "unknown");
  dur ← validate_int duration;
  mret ({| player_id := account_id; platform := "opendota"; game_timestamp := game_dt;
           duration_seconds := dur; result := if won then "win" else "loss";
           rating := None; game_mode := str_of raw_mode |}, n).

Fixpoint opendota_loop (account_id : string) (clock : nat → Z) (n : nat)
    (matches : list json) : pyresult (list PlayerActivity) :=
  match matches with
  | [] => Ok []
  | match_ :: rest =>
      '(a, n) ← opendota_activity account_id clock n match_;
      activities ← opendota_loop account_id clock n rest;
      mret (a :: activities)
  end.

Definition standardize_opendota (PROJECT_ROOT : string) (fs : store)
    (clock : nat → Z) (account_id : string) (raw_dir : option string)
  : pyresult (list PlayerActivity) :=
  let base := default (RAW_DIR PROJECT_ROOT) raw_dir +:+ "/opendota" in
  let matches_path := base +:+ "/" +:+ account_id +:+ "_matches.json" in
  if negb (exists_ fs matches_path) then Ok []
  else
    matches ← _load_json fs matches_path;
    items ← iterate matches;
    opendota_loop account_id clock 0 items.

(** [next((p for p in participants if p.get("puuid") == puuid), None)]. *)
Fixpoint find_participant (puuid : json) (participants : list json)
  : pyresult (option json) :=
  match participants with
  | [] => Ok None
  | p :: rest =>
      found ← get p "puuid" JNull;
      if py_eq found puuid then Ok (Some p) else find_participant puuid rest
  end.

(** The body of the loop of [standardize_riot] for one [match]: [None] when
    the loop goes on to the next match without an activity. *)
Definition riot_activity (safe_name : string) (puuid : json) (match_ : json)
  : pyresult (option PlayerActivity) :=
  info ← get match_ "info" (JObj []);
  created ← get info "gameCreation" (JInt 0);
  seconds ← div_1000 created;
  game_dt ← fromtimestamp_float seconds;
  duration ← get info "gameDuration" (JInt 0);
  participants ← get info "participants" (JList []);
  candidates ← iterate participants;
  player_data ← find_participant puuid candidates;
  match player_data with
  | None => mret None
  | Some player_data =>
      win ← get player_data "win" JNull;
      raw_mode ← get info "gameMode" (JStr "unknown");
      dur ← validate_int duration;
      mode ← str_field raw_mode;
      mret (Some {| player_id := safe_name; platform := "riot_lol";
                    game_timestamp := game_dt; duration_seconds := dur;
                    result := if truthy win then "win" else "loss";
                    rating := None; game_mode := mode |})
  end.

Fixpoint riot_loop (safe_name : string) (puuid : json) (matches : list json)
  : pyresult (list PlayerActivity) :=
  match matches with
  | [] => Ok []
  | match_ :: rest =>
      a ← riot_activity safe_name puuid match_;
      activities ← riot_loop safe_name puuid rest;
      mret (match a with Some a => a :: activities | None => activities end)
  end.

Definition standardize_riot (PROJECT_ROOT : string) (fs : store)
    (game_name tag_line : string) (raw_dir : option string)
  : pyresult (list PlayerActivity) :=
  let base := default (RAW_DIR PROJECT_ROOT) raw_dir +:+ "/riot_lol" in
  let safe_name := lower (game_name +:+ "_" +:+ tag_line) in
  let matches_path := base +:+ "/" +:+ safe_name +:+ "_matches.json" in
  let account_path := base +:+ "/" +:+ safe_name +:+ "_account.json" in
  if negb (exists_ fs matches_path) || negb (exists_ fs account_path) then Ok []
  else
    account ← _load_json fs account_path;
    puuid ← get account "puuid" (JStr "");
    matches ← _load_json fs matches_path;
    items ← iterate matches;
    riot_loop safe_name puuid items.

End with_runtime.

End StandardizeMore.


(** ** [game_churn/features/build.py] *)

Module Build.
Import Py Json Schema Config Engineer.

Section with_engine.

Variable sort_by : ∀ A : Type, (A → Z) → list A → list A.

(** [df.select("player_id", "platform").unique()]: the distinct pairs, in
    an order polars does not promise. *)
Variable unique : list (string * string) → list (string * string).

(** The loop over [player_platforms]; each player's build reads the clock
    three times. *)
Fixpoint build_rows (PROJECT_ROOT : string) (settings : Settings) (fs : store)
    (clock : nat → Z) (activities : list PlayerActivity)
    (player_platforms : list (string * string))
  : pyresult (list (gmap string value)) :=
  match player_platforms with
  | [] => Ok []
  | pp :: rest =>
      features ← build_features_for_player sort_by PROJECT_ROOT settings fs clock
                   activities pp.1 pp.2 None (Some (RAW_DIR PROJECT_ROOT));
      all_features ← build_rows PROJECT_ROOT settings fs (λ i, clock (3 + i)%nat)
                       activities rest;
      mret (features :: all_features)
  end.

(** [build_all_features()], from the frame [activities] that
    [load_all_activities()] returned; the result is the list of rows of
    [features_df], which the function also writes to the feature store. *)
Definition build_all_features (PROJECT_ROOT : string) (settings : Settings)
    (fs : store) (clock : nat → Z) (activities : list PlayerActivity)
  : pyresult (list (gmap string value)) :=
  match activities with
  | [] => Ok []
  | _ =>
      let player_platforms := unique ((λ a, (player_id a, platform a)) <$> activities) in
      build_rows PROJECT_ROOT settings fs clock activities player_platforms
  end.

End with_engine.

End Build.

(** ** A concrete engine, to run the model on examples *)

Module Concrete.
Import Py Json Schema.

Fixpoint insert_by {A} (key : A → Z) (x : A) (l : list A) : list A :=
  match l with
  | [] => [x]
  | y :: l' => if key x <=? key y then x :: l else y :: insert_by key x l'
  end.

(** Insertion sort by [key]; rows with equal keys keep their order. *)
Definition stable_sort_by (A : Type) (key : A → Z) (l : list A) : list A :=
  foldr (insert_by key) [] l.

(** The distinct pairs, each at its first place. *)
Definition unique_first (l : list (string * string)) : list (string * string) :=
  reverse (remove_dups (reverse l)).

(** A validator that takes a value of the field's type and nothing else. *)
#[export] Instance strict : Validation := {|
  int_or_none j :=
    match j with
    | JNull => Ok None
    | JInt z => Ok (Some z)
    | _ => Raise ValidationError
    end;
  str_field j :=
    match j with
    | JStr s => Ok s
    | _ => Raise ValidationError
    end
|}.

End Concrete.

(** ** Vocabulary of the statements *)

Module Wording.
Import Py Json Schema Config Engineer.

(** The value [features.get(k, dflt)] has as a number. *)
Definition reads (features : gmap string value) (k : string) (dflt : value) (q : Q) : Prop :=
  as_num (dict_get features k dflt) = Ok q.

(** The score before the final clamp, term by term as the code adds them. *)
Definition raw_score (games sessions trend wr peers : Q) : Q :=
  (Qmin (games / 2) 30 + Qmin (sessions * 30) 20 + Qmin (trend * 20) 20
   + wr * 15 + Qmin (peers / 3) 15)%Q.


(** [(ref - last).total_seconds() / 86400], before any rounding. *)
Definition exact_days (ref last : Z) : Q := (total_seconds (ref - last) / 86400)%Q.

(** What polars promises of a sort: the same rows, in ascending key order. *)
Definition is_sort (sort_by : ∀ A : Type, (A → Z) → list A → list A) : Prop :=
  ∀ (A : Type) (key : A → Z) (l : list A),
    sort_by A key l ≡ₚ l ∧ StronglySorted (λ x y, key x ≤ key y) (sort_by A key l).

(** [a] is one of [rows] and carries the rating [r]. *)
Definition rated_in (rows : list PlayerActivity) (a : PlayerActivity) (r : Z) : Prop :=
  a ∈ rows ∧ rating a = Some r.

(** [a] is not later than [bound], when there is one. *)
Definition within (bound : option Z) (a : PlayerActivity) : Prop :=
  match bound with
  | None => True
  | Some c => game_timestamp a ≤ c
  end.

(** [a], with rating [r], is a latest rated row within [bound]. *)
Definition latest_rated (rows : list PlayerActivity) (bound : option Z)
    (a : PlayerActivity) (r : Z) : Prop :=
  rated_in rows a r ∧ within bound a ∧
  ∀ b rb, rated_in rows b rb → within bound b → game_timestamp b ≤ game_timestamp a.

End Wording.

(** Vocabulary for the feature table builder. *)
Module BuildWording.
Import Py Json Schema Config Engineer.

(** What polars promises of [unique]: each distinct pair once. *)
Definition is_unique (unique : list (string * string) → list (string * string)) : Prop :=
  ∀ l, NoDup (unique l) ∧ ∀ pp, pp ∈ unique l ↔ pp ∈ l.




End BuildWording.

(** Vocabulary for the Chess.com standardizer. *)
Module ChessWording.
Import Py Json Schema Config Standardize.

(** The file [standardize_chess_com] reads for [username]. *)
Definition games_path (PROJECT_ROOT : string) (raw_dir : option string)
    (username : string) : string :=
  let base := default (RAW_DIR PROJECT_ROOT) raw_dir +:+ "/chess_com" in
  base +:+ "/" +:+ lower username +:+ "_games.json".

(** [game.get("end_time", 0)] of a record that is an object. *)
Definition end_time (game : json) : json :=
  match game with
  | JObj members => default (JInt 0) (obj_get "end_time" members)
  | _ => JInt 0
  end.

(** The record's [end_time] is missing, zero or otherwise false. *)
Definition no_end_time (game : json) : Prop := truthy (end_time game) = false.

#[global] Instance no_end_time_dec game : Decision (no_end_time game).
Proof. unfold no_end_time. apply _. Defined.




End ChessWording.

(** ** Example inputs *)

Module Examples.
Import Py Json Schema Config Engineer.



(** The mapping of [test_trend_features]. *)
Definition test_trend : gmap string value :=
  <["playtime_14d_hours" := VFloat 8]>
  (<["playtime_7d_hours" := VFloat 5]>
  (<["games_14d" := VInt 15]>
  (<["games_7d" := VInt 10]> ∅))).


(** A hand-made mapping with more games in 7 days than in 14. *)
Definition more_in_7d : gmap string value :=
  <["games_14d" := VInt 2]> (<["games_7d" := VInt 3]> ∅).

Definition activity (pid plat : string) (ts dur : Z) (res : string) (r : option Z)
  : PlayerActivity :=
  {| player_id := pid; platform := plat; game_timestamp := ts;
     duration_seconds := dur; result := res; rating := r; game_mode := "rapid" |}.

(** Day [d] at midnight. *)
Definition day (d : Z) : Z := timedelta_days d.

(** Two half-hour games, 3 and 10 days before day 30. *)
Definition two_games : list PlayerActivity :=
  [activity "p" "chess_com" (day 20) 1800 "win" (Some 1500);
   activity "p" "chess_com" (day 27) 1800 "loss" (Some 1490)].



Definition default_settings : Settings :=
  {| riot_api_key := ""; rawg_api_key := ""; churn_threshold_days := 14;
     request_timeout := 30; max_retries := 3 |}.

(** One game at the epoch, looked at 13.996 days later. *)
Definition one_game : list PlayerActivity :=
  [activity "p" "chess_com" 0 0 "win" None].



(** A rated game exactly 30 days before day 30, and one on day 30. *)
Definition rated_at_cutoff : list PlayerActivity :=
  [activity "p" "chess_com" (day 0) 0 "win" (Some 1000);
   activity "p" "chess_com" (day 30) 0 "win" (Some 1100)].

Definition rated_at_cutoff_features : gmap string value :=
  compute_performance_features Concrete.stable_sort_by 0 rated_at_cutoff
    "p" "chess_com" (Some (day 30)).

(** An environment that sets the churn threshold to -5. *)
Definition negative_threshold_env : environ :=
  {| GAME_CHURN_RIOT_API_KEY := None; GAME_CHURN_RAWG_API_KEY := None;
     GAME_CHURN_CHURN_THRESHOLD_DAYS := Some (IsInt (-5));
     GAME_CHURN_REQUEST_TIMEOUT := None; GAME_CHURN_MAX_RETRIES := None |}.

(** A clock that stands at one second past day 100. *)
Definition clock_day_100 (i : nat) : Z := day 100 + 1000000.

(** A finished game of alice with an end time, and one without. *)
Definition game_with_end_time : json :=
  JObj [("end_time", JInt 1700000000);
        ("white", JObj [("username", JStr "Alice"); ("result", JStr "win");
                        ("rating", JInt 1500)]);
        ("black", JObj [("username", JStr "bob"); ("result", JStr "resigned");
                        ("rating", JInt 1480)]);
        ("time_class", JStr "rapid")].

Definition game_without_end_time : json :=
  JObj [("white", JObj [("username", JStr "bob"); ("result", JStr "win");
                        ("rating", JInt 1490)]);
        ("black", JObj [("username", JStr "alice"); ("result", JStr "checkmated");
                        ("rating", JInt 1492)]);
        ("time_class", JStr "blitz")].

Definition alice_path : string := "/srv/data/01_raw/chess_com/alice_games.json".

(** A raw store with alice's two games. *)
Definition alice_store : store :=
  {[ alice_path := JsonText (JList [game_with_end_time; game_without_end_time]) ]}.

(** A raw store where alice's file was cut off while it was written. *)
Definition truncated_store : store :=
  {[ alice_path := NotJson "[{'end_time': 17" ]}.

(** A raw store where alice's file holds a record that is no object. *)
Definition stray_record_store : store :=
  {[ alice_path := JsonText (JList [JNull; game_with_end_time]) ]}.

(** One Dota match of account 77, ten days before day 100. *)
Definition dota_match : list PlayerActivity :=
  [activity "77" "opendota" (day 90) 2400 "win" None].

(** A raw store with a peer file for account 77. *)
Definition peers_store : store :=
  {[ "/srv/data/01_raw/opendota/77_peers.json" :=
       JsonText (JList [JObj [("account_id", JInt 99); ("games", JInt 10)]]) ]}.

(** The activities of two players on two platforms. *)
Definition mixed_activities : list PlayerActivity :=
  two_games ++ dota_match.

End Examples.


(** Window counters, as the aggregator computes them from a player's rows. *)
Module Windows.
Import Py Schema Engineer.

Definition games_in (w ref : Z) (rows : list PlayerActivity) : Z :=
  Z.of_nat (length (since (ref - timedelta_days w) rows)).

Definition playtime_in (w ref : Z) (rows : list PlayerActivity) : Q :=
  round (inject_Z (sum_durations (since (ref - timedelta_days w) rows)) / 3600) 2.

End Windows.


(** The trend of a numerator window over a denominator window. *)
Module Trend.
Import Py.

Definition trend_of (num den : Q) : Q :=
  if Qlt_le_dec 0 den then round (num / den) 3 else 0%Q.

End Trend.


(** Key sets of the feature mappings. *)
Module FeatureKeys.

Definition window_keys : gset string :=
  list_to_set
    ["player_id"; "platform"; "games_7d"; "games_14d"; "games_30d";
     "playtime_7d_hours"; "playtime_14d_hours"; "playtime_30d_hours";
     "avg_daily_sessions_7d"; "avg_daily_sessions_14d"; "avg_daily_sessions_30d";
     "max_gap_days_30d"].

Definition trend_keys : gset string :=
  list_to_set ["games_trend_7d_vs_14d"; "playtime_trend_7d_vs_14d"].

Definition performance_keys : gset string :=
  list_to_set ["win_rate_7d"; "win_rate_30d"; "rating_current"; "rating_change_30d"].

Definition social_keys : gset string :=
  list_to_set ["unique_peers_30d"; "peer_games_30d"].

Definition churn_keys : gset string :=
  list_to_set ["days_since_last_game"; "churned"].

(** The keys that [test_build_features_complete] expects. *)
Definition snapshot_keys : gset string :=
  window_keys ∪ trend_keys ∪ performance_keys ∪ social_keys
  ∪ {["engagement_score"]} ∪ churn_keys.

End FeatureKeys.

(** Session and gap statistics of the aggregator. *)
Module Sessions.
Import Py Schema Engineer.

(** [avg_daily_sessions_<w>] of a player's rows. *)
Definition avg_sessions_in (w ref : Z) (rows : list PlayerActivity) : Q :=
  let window_df := since (ref - timedelta_days w) rows in
  if (0 <? length window_df)%nat
  then round (inject_Z (Z.of_nat (n_unique_days window_df)) / inject_Z w) 3
  else 0%Q.

End Sessions.


(** Win rates of the performance calculator. *)
Module Performance.
Import Py Schema Engineer.

(** The rows of the window that are wins. *)
Definition wins_in (w ref : Z) (rows : list PlayerActivity) : list PlayerActivity :=
  filter (λ a, result a = "win") (since (ref - timedelta_days w) rows).

(** [win_rate_<w>] of a player's rows. *)
Definition win_rate_in (w ref : Z) (rows : list PlayerActivity) : Q :=
  let window_df := since (ref - timedelta_days w) rows in
  if (0 <? length window_df)%nat
  then round (inject_Z (Z.of_nat (length (wins_in w ref rows)))
              / inject_Z (Z.of_nat (length window_df))) 3
  else 0%Q.

End Performance.


(** Vocabulary for the peer calculator. *)
Module Social.
Import Py Json Schema Config Engineer.

(** The file [compute_social_features] reads for [pid]. *)
Definition peers_path (PROJECT_ROOT : string) (raw_dir : option string) (pid : string)
  : string :=
  let base := default (RAW_DIR PROJECT_ROOT) raw_dir +:+ "/opendota" in
  base +:+ "/" +:+ pid +:+ "_peers.json".

(** The integer [p.get("games", 0)] of a peer that is an object. *)
Definition games_of (peer : json) : option Z :=
  match peer with
  | JObj members =>
      match default (JInt 0) (obj_get "games" members) with
      | JInt z => Some z
      | _ => None
      end
  | _ => None
  end.

Definition sum_Z (zs : list Z) : Z := foldr Z.add 0 zs.

End Social.


(** An example runtime: exact on the integers and strings that the example
    documents hold. *)
Module ConcreteRuntime.
Import Py Json StandardizeMore.

Definition example_str (j : json) : string :=
  match j with
  | JStr s => s
  | JInt z => pretty z
  | JBool true => "True"
  | JBool false => "False"
  | JNull => "None"
  | JFloat _ | JList _ | JObj _ => ""
  end.

Definition example_eq (x y : json) : bool :=
  match x, y with
  | JStr s1, JStr s2 => String.eqb s1 s2
  | JInt z1, JInt z2 => z1 =? z2
  | JBool b1, JBool b2 => Bool.eqb b1 b2
  | JNull, JNull => true
  | _, _ => false
  end.

#[export] Instance example : Runtime := {|
  validate_int j := match j with JInt z => Ok z | _ => Raise ValidationError end;
  str_of := example_str;
  py_eq := example_eq
|}.

End ConcreteRuntime.

(** Vocabulary and example documents for OpenDota and Riot. *)
Module MoreExamples.
Import Py Json Schema Config Engineer Examples.

(** The file [standardize_opendota] reads for [account_id]. *)
Definition matches_path (PROJECT_ROOT : string) (raw_dir : option string)
    (account_id : string) : string :=
  let base := default (RAW_DIR PROJECT_ROOT) raw_dir +:+ "/opendota" in
  base +:+ "/" +:+ account_id +:+ "_matches.json".

(** [game.get(k, dflt)] of a record that is an object. *)
Definition field (record : json) (k : string) (dflt : json) : json :=
  match record with
  | JObj members => default dflt (obj_get k members)
  | _ => dflt
  end.

(** The name under which [standardize_riot] files a player. *)
Definition riot_safe_name (game_name tag_line : string) : string :=
  lower (game_name +:+ "_" +:+ tag_line).

Definition riot_matches_path (PROJECT_ROOT : string) (raw_dir : option string)
    (game_name tag_line : string) : string :=
  let base := default (RAW_DIR PROJECT_ROOT) raw_dir +:+ "/riot_lol" in
  base +:+ "/" +:+ riot_safe_name game_name tag_line +:+ "_matches.json".

Definition riot_account_path (PROJECT_ROOT : string) (raw_dir : option string)
    (game_name tag_line : string) : string :=
  let base := default (RAW_DIR PROJECT_ROOT) raw_dir +:+ "/riot_lol" in
  base +:+ "/" +:+ riot_safe_name game_name tag_line +:+ "_account.json".

(** What alice's two games standardize to. *)
Definition alice_activities : list PlayerActivity :=
  [ {| player_id := "alice"; platform := "chess_com";
       game_timestamp := 1700000000 * 1000000; duration_seconds := 0;
       result := "win"; rating := Some 1500; game_mode := "rapid" |};
    {| player_id := "alice"; platform := "chess_com";
       game_timestamp := day 100 + 1000000; duration_seconds := 0;
       result := "loss"; rating := Some 1492; game_mode := "blitz" |} ].

(** A Dota match won by the dire side, played from slot 130. *)
Definition dire_win : json :=
  JObj [("match_id", JInt 1); ("start_time", JInt 1700000000); ("duration", JInt 2400);
        ("player_slot", JInt 130); ("radiant_win", JBool false); ("game_mode", JInt 22)].

(** A Dota match from slot 2 whose record does not say who won. *)
Definition no_winner : json :=
  JObj [("match_id", JInt 2); ("start_time", JInt 1700003600); ("duration", JInt 1800);
        ("player_slot", JInt 2); ("game_mode", JInt 22)].

Definition dota_path : string := "/srv/data/01_raw/opendota/77_matches.json".

Definition dota_store : store :=
  {[ dota_path := JsonText (JList [dire_win; no_winner]) ]}.

Definition dota_activities : list PlayerActivity :=
  [ {| player_id := "77"; platform := "opendota";
       game_timestamp := 1700000000 * 1000000; duration_seconds := 2400;
       result := "win"; rating := None; game_mode := "22" |};
    {| player_id := "77"; platform := "opendota";
       game_timestamp := 1700003600 * 1000000; duration_seconds := 1800;
       result := "loss"; rating := None; game_mode := "22" |} ].

(** A League match that the player with puuid [abc] won, one of another
    player, and one without a creation time. *)
Definition own_match : json :=
  JObj [("info", JObj [("gameCreation", JInt 1700000000000); ("gameDuration", JInt 1500);
                       ("gameMode", JStr "CLASSIC");
                       ("participants",
                        JList [JObj [("puuid", JStr "xyz"); ("win", JBool false)];
                               JObj [("puuid", JStr "abc"); ("win", JBool true)]])])].

Definition foreign_match : json :=
  JObj [("info", JObj [("gameCreation", JInt 1700000100000); ("gameDuration", JInt 1200);
                       ("gameMode", JStr "ARAM");
                       ("participants",
                        JList [JObj [("puuid", JStr "xyz"); ("win", JBool true)]])])].

Definition undated_match : json :=
  JObj [("info", JObj [("gameDuration", JInt 900); ("gameMode", JStr "CLASSIC");
                       ("participants",
                        JList [JObj [("puuid", JStr "abc"); ("win", JBool false)]])])].

Definition riot_store : store :=
  <["/srv/data/01_raw/riot_lol/faker_kr1_matches.json" :=
      JsonText (JList [own_match; foreign_match; undated_match])]>
  {[ "/srv/data/01_raw/riot_lol/faker_kr1_account.json" :=
       JsonText (JObj [("puuid", JStr "abc"); ("gameName", JStr "Faker")]) ]}.

End MoreExamples.


(** Vocabulary for the Riot standardizer. *)
Module RiotWording.
Import Py Json Schema Config Standardize StandardizeMore MoreExamples.

(** The participant is an object that does not carry the puuid [me]. *)
Definition other_player (me : string) (p : json) : Prop :=
  ∃ members, p = JObj members ∧
    (obj_get "puuid" members = None ∨
     ∃ s, obj_get "puuid" members = Some (JStr s) ∧ s ≠ me).

(** A match with a creation time that a [datetime] can hold and a list of
    participants none of whom is [me]. *)
Definition foreign_to (me : string) (match_ : json) : Prop :=
  ∃ members info participants seconds dt,
    match_ = JObj members ∧
    default (JObj []) (obj_get "info" members) = JObj info ∧
    div_1000 (default (JInt 0) (obj_get "gameCreation" info)) = Ok seconds ∧
    fromtimestamp_float seconds = Ok dt ∧
    default (JList []) (obj_get "participants" info) = JList participants ∧
    Forall (other_player me) participants.

End RiotWording.


(** What the player's League matches standardize to. *)
Module RiotExamples.
Import Py Json Schema Config Engineer Examples MoreExamples.

Definition faker_activities : list PlayerActivity :=
  [ {| player_id := "faker_kr1"; platform := "riot_lol";
       game_timestamp := 1700000000 * 1000000; duration_seconds := 1500;
       result := "win"; rating := None; game_mode := "CLASSIC" |};
    {| player_id := "faker_kr1"; platform := "riot_lol";
       game_timestamp := 0; duration_seconds := 900;
       result := "loss"; rating := None; game_mode := "CLASSIC" |} ].

Definition undated_activity : PlayerActivity :=
  {| player_id := "faker_kr1"; platform := "riot_lol";
     game_timestamp := 0; duration_seconds := 900;
     result := "loss"; rating := None; game_mode := "CLASSIC" |}.

(** The store with the match of the other player only. *)
Definition foreign_store : store :=
  <["/srv/data/01_raw/riot_lol/faker_kr1_matches.json" :=
      JsonText (JList [foreign_match])]> riot_store.

End RiotExamples.


(** ** A whole row *)

Module RowExamples.
Import Py Json Schema Config Engineer Concrete Examples.

(** The row [build_features_for_player] gives player [p] of
    [Examples.two_games] one second into day 100. *)
Definition two_games_row : gmap string value :=
  match build_features_for_player Concrete.stable_sort_by "/srv" default_settings
          peers_store clock_day_100 two_games "p" "chess_com" None None with
  | Ok f => f
  | Raise _ => ∅
  end.

End RowExamples.


(** * Properties *)

(** ** Rounding *)

Module RoundFacts.
Import Py.

Lemma inject_Z_succ (z : Z) : inject_Z (z + 1) = (inject_Z z + 1)%Q.
Proof. rewrite inject_Z_plus. reflexivity. Qed.

Lemma floor_bounds (x : Q) :
  (inject_Z (Qfloor x) <= x)%Q ∧ (x < inject_Z (Qfloor x) + 1)%Q.
Proof.
  split; [apply Qfloor_le|].
  pose proof (Qlt_floor x) as Hlt.
  rewrite inject_Z_plus in Hlt. exact Hlt.
Qed.

Lemma round_half_even_cases (x : Q) :
  round_half_even x = Qfloor x ∨ round_half_even x = Qfloor x + 1.
Proof.
  unfold round_half_even.
  destruct (_ ?= _)%Q; [destruct (Z.even _)|..]; auto.
Qed.

Lemma round_half_even_near (x : Q) :
  (x - (1 # 2) <= inject_Z (round_half_even x))%Q ∧
  (inject_Z (round_half_even x) <= x + (1 # 2))%Q.
Proof.
  destruct (floor_bounds x) as [Hlo Hhi].
  unfold round_half_even.
  destruct (Qcompare_spec (x - inject_Z (Qfloor x)) (1 # 2)) as [He|Hl|Hg].
  - destruct (Z.even _); rewrite ?inject_Z_succ; split; lra.
  - split; lra.
  - rewrite inject_Z_succ. split; lra.
Qed.

Lemma round_half_even_mono (x y : Q) :
  (x <= y)%Q → round_half_even x ≤ round_half_even y.
Proof.
  intros Hxy.
  pose proof (Qfloor_resp_le _ _ Hxy) as Hf.
  destruct (Z.eq_dec (Qfloor x) (Qfloor y)) as [Heq|Hne].
  - unfold round_half_even. rewrite Heq.
    destruct (Qcompare_spec (x - inject_Z (Qfloor y)) (1 # 2)) as [He|Hl|Hg];
      destruct (Qcompare_spec (y - inject_Z (Qfloor y)) (1 # 2)) as [He'|Hl'|Hg'];
      try destruct (Z.even (Qfloor y)); try lia; exfalso; lra.
  - destruct (round_half_even_cases x) as [-> | ->];
      destruct (round_half_even_cases y) as [-> | ->]; lia.
Qed.

Lemma round_half_even_Z (z : Z) : round_half_even (inject_Z z) = z.
Proof.
  unfold round_half_even. rewrite Qfloor_Z.
  destruct (Qcompare_spec (inject_Z z - inject_Z z) (1 # 2)) as [He|Hl|Hg];
    [exfalso; lra | reflexivity | exfalso; lra].
Qed.

Lemma scale_pos (n : nat) : (0 < inject_Z (10 ^ Z.of_nat n))%Q.
Proof.
  change 0%Q with (inject_Z 0). rewrite <- Zlt_Qlt.
  apply Z.pow_pos_nonneg; lia.
Qed.

Lemma round_mono (x y : Q) (n : nat) : (x <= y)%Q → (round x n <= round y n)%Q.
Proof.
  intros Hxy. unfold round.
  pose proof (scale_pos n) as Hs.
  apply Qmult_le_compat_r; [|apply Qlt_le_weak, Qinv_lt_0_compat, Hs].
  rewrite <- Zle_Qle. apply round_half_even_mono.
  apply Qmult_le_compat_r; [exact Hxy | lra].
Qed.

(** An integer is a fixed point of [round]. *)
Lemma round_Z (z : Z) (n : nat) : (round (inject_Z z) n == inject_Z z)%Q.
Proof.
  unfold round. pose proof (scale_pos n) as Hs.
  rewrite <- inject_Z_mult, round_half_even_Z, inject_Z_mult.
  field. lra.
Qed.


Lemma round_nonneg (x : Q) (n : nat) : (0 <= x)%Q → (0 <= round x n)%Q.
Proof.
  intros Hx. rewrite <- (round_Z 0 n). apply round_mono. exact Hx.
Qed.

Lemma round_le_Z (x : Q) (z : Z) (n : nat) :
  (x <= inject_Z z)%Q → (round x n <= inject_Z z)%Q.
Proof. intros Hx. rewrite <- (round_Z z n). apply round_mono. exact Hx. Qed.


End RoundFacts.

(** ** The engagement score *)

Module EngagementFacts.
Import Py Engineer Wording RoundFacts.

Lemma Qmin_nonneg (x y : Q) : (0 <= x)%Q → (0 <= y)%Q → (0 <= Qmin x y)%Q.
Proof. intros Hx Hy. apply Q.min_glb; assumption. Qed.

Lemma Qdiv_nonneg (x d : Q) : (0 <= x)%Q → (0 < d)%Q → (0 <= x / d)%Q.
Proof. intros Hx Hd. apply Qle_shift_div_l; [exact Hd | lra]. Qed.

Lemma raw_score_nonneg (g s t w p : Q) :
  (0 <= g)%Q → (0 <= s)%Q → (0 <= t)%Q → (0 <= w)%Q → (0 <= p)%Q →
  (0 <= raw_score g s t w p)%Q.
Proof.
  intros Hg Hs Ht Hw Hp. unfold raw_score.
  assert (0 <= Qmin (g / 2) 30)%Q
    by (apply Qmin_nonneg; [apply Qdiv_nonneg|]; lra).
  assert (0 <= Qmin (s * 30) 20)%Q by (apply Qmin_nonneg; lra).
  assert (0 <= Qmin (t * 20) 20)%Q by (apply Qmin_nonneg; lra).
  assert (0 <= Qmin (p / 3) 15)%Q
    by (apply Qmin_nonneg; [apply Qdiv_nonneg|]; lra).
  lra.
Qed.

Lemma compute_engagement_score_eq (features : gmap string value) (g s t w p : Q) :
  reads features "games_30d" (VInt 0) g →
  reads features "avg_daily_sessions_30d" (VInt 0) s →
  reads features "games_trend_7d_vs_14d" (VFloat 0) t →
  reads features "win_rate_30d" (VFloat 0) w →
  reads features "unique_peers_30d" (VInt 0) p →
  compute_engagement_score features
  = Ok (round (Qmin (0 + Qmin (g / 2) 30 + Qmin (s * 30) 20 + Qmin (t * 20) 20
                     + w * 15 + Qmin (p / 3) 15) 100) 2).
Proof.
  unfold reads, compute_engagement_score. intros -> -> -> -> ->. reflexivity.
Qed.

Lemma clamped_score_range (x : Q) (n : nat) :
  (0 <= x)%Q → (0 <= round (Qmin x 100) n)%Q ∧ (round (Qmin x 100) n <= 100)%Q.
Proof.
  intros Hx. split.
  - apply round_nonneg, Qmin_nonneg; lra.
  - apply (round_le_Z _ 100), Q.le_min_r.
Qed.

End EngagementFacts.

(** ** The windowed aggregator *)

Module WindowFacts.
Import Py Schema Engineer Windows RoundFacts.

Lemma since_nil (cutoff : Z) : since cutoff [] = [].
Proof. reflexivity. Qed.

(** What the aggregator stores under the six counter keys. *)
Lemma time_window_lookups sort_by (now : Z) (df : list PlayerActivity)
    (pid plat : string) (ref : Z) :
  let f := compute_time_window_features sort_by now df pid plat (Some ref) in
  let rows := player_rows df pid plat in
  (f !! "games_7d" = Some (VInt (games_in 7 ref rows)) ∧
   f !! "games_14d" = Some (VInt (games_in 14 ref rows)) ∧
   f !! "games_30d" = Some (VInt (games_in 30 ref rows))) ∧
  ((∃ q, f !! "playtime_7d_hours" = Some (VFloat q) ∧ (q == playtime_in 7 ref rows)%Q) ∧
   (∃ q, f !! "playtime_14d_hours" = Some (VFloat q) ∧ (q == playtime_in 14 ref rows)%Q) ∧
   (∃ q, f !! "playtime_30d_hours" = Some (VFloat q) ∧ (q == playtime_in 30 ref rows)%Q)).
Proof.
  intros f rows. subst f rows.
  unfold compute_time_window_features, ref_or_now. simpl default.
  destruct (player_rows df pid plat) as [|a rows] eqn:Hrows.
  - unfold games_in, playtime_in. rewrite !since_nil. simpl.
    repeat split; try reflexivity; eexists; (split; [reflexivity|]); reflexivity.
  - set (l := a :: rows).
    unfold windows, foldl, window_step. cbn [String.append].
    repeat match goal with
    | |- context [if ?b then _ else _] => destruct b
    | |- context [match gaps ?x with _ => _ end] => destruct (gaps x)
    end;
    (split; [repeat split|repeat split; eexists; (split; [|reflexivity])]);
    simplify_map_eq; reflexivity.
Qed.

Lemma cutoff_mono (ref w1 w2 : Z) :
  w1 ≤ w2 → ref - timedelta_days w2 ≤ ref - timedelta_days w1.
Proof. unfold timedelta_days, usec_per_day. lia. Qed.

(** A later cutoff keeps fewer rows. *)
Lemma since_length_mono (c1 c2 : Z) (l : list PlayerActivity) :
  c1 ≤ c2 → (length (since c2 l) ≤ length (since c1 l))%nat.
Proof.
  intros Hc. unfold since. induction l as [|a l IH]; [reflexivity|].
  rewrite !filter_cons.
  destruct (decide (c2 ≤ game_timestamp a)), (decide (c1 ≤ game_timestamp a));
    simpl; lia.
Qed.

Lemma sum_durations_since_nonneg (c : Z) (l : list PlayerActivity) :
  Forall (λ a, 0 ≤ duration_seconds a) l → 0 ≤ sum_durations (since c l).
Proof.
  unfold since. induction 1 as [|a l Ha _ IH]; [reflexivity|].
  rewrite filter_cons. destruct (decide _); simpl; lia.
Qed.


Lemma games_in_mono (w1 w2 ref : Z) (rows : list PlayerActivity) :
  w1 ≤ w2 → games_in w1 ref rows ≤ games_in w2 ref rows.
Proof.
  intros Hw. unfold games_in.
  apply Nat2Z.inj_le, since_length_mono, cutoff_mono, Hw.
Qed.

Lemma games_in_nonneg (w ref : Z) (rows : list PlayerActivity) : 0 ≤ games_in w ref rows.
Proof. unfold games_in. lia. Qed.



End WindowFacts.

(** ** The trend calculator *)

Module TrendFacts.
Import Py Engineer Wording Trend RoundFacts.

Lemma trend_ratio_eq (num den : value) (n d : Q) :
  as_num num = Ok n → as_num den = Ok d →
  trend_ratio num den = Ok (VFloat (trend_of n d)).
Proof.
  intros Hn Hd. unfold trend_ratio, trend_of. rewrite Hd. simpl.
  destruct (Qlt_le_dec 0 d) as [Hpos|Hnpos]; [|reflexivity].
  rewrite Hn. simpl. unfold truediv.
  destruct (Qeq_bool d 0) eqn:Hz; [|reflexivity].
  apply Qeq_bool_eq in Hz. exfalso. lra.
Qed.

(** The denominator is tested first: when it is not positive the numerator
    is not even looked at. *)
Lemma trend_ratio_guard (num den : value) (d : Q) :
  as_num den = Ok d → ¬ (0 < d)%Q → trend_ratio num den = Ok (VFloat 0).
Proof.
  intros Hd Hle. unfold trend_ratio. rewrite Hd. simpl.
  destruct (Qlt_le_dec 0 d); [contradiction | reflexivity].
Qed.

Lemma compute_trend_features_eq (features : gmap string value) (n7 n14 p7 p14 : Q) :
  reads features "games_7d" (VInt 0) n7 →
  reads features "games_14d" (VInt 0) n14 →
  reads features "playtime_7d_hours" (VFloat 0) p7 →
  reads features "playtime_14d_hours" (VFloat 0) p14 →
  compute_trend_features features
  = Ok (<["playtime_trend_7d_vs_14d" := VFloat (trend_of p7 p14)]>
        (<["games_trend_7d_vs_14d" := VFloat (trend_of n7 n14)]> features)).
Proof.
  unfold reads, compute_trend_features. intros H7 H14 Hp7 Hp14.
  rewrite (trend_ratio_eq _ _ _ _ H7 H14). simpl.
  unfold dict_get in *. rewrite !lookup_insert_ne by done.
  rewrite (trend_ratio_eq _ _ _ _ Hp7 Hp14). reflexivity.
Qed.

Lemma trend_of_nonneg (n d : Q) : (0 <= n)%Q → (0 <= trend_of n d)%Q.
Proof.
  intros Hn. unfold trend_of. destruct (Qlt_le_dec 0 d) as [Hd|Hd]; [|lra].
  apply round_nonneg, Qle_shift_div_l; [exact Hd | lra].
Qed.

Lemma trend_of_le_1 (n d : Q) : (n <= d)%Q → (trend_of n d <= 1)%Q.
Proof.
  intros Hn. unfold trend_of. destruct (Qlt_le_dec 0 d) as [Hd|Hd]; [|lra].
  apply (round_le_Z _ 1), Qle_shift_div_r; [exact Hd|].
  change (inject_Z 1) with 1%Q. lra.
Qed.

Lemma reads_lookup (features : gmap string value) (k : string) (dflt v : value) (q : Q) :
  features !! k = Some v → as_num v = Ok q → reads features k dflt q.
Proof. intros Hk Hv. unfold reads, dict_get. rewrite Hk. exact Hv. Qed.

Lemma inject_Z_nonneg (z : Z) : 0 ≤ z → (0 <= inject_Z z)%Q.
Proof. intros Hz. change 0%Q with (inject_Z 0). rewrite <- Zle_Qle. exact Hz. Qed.

(** The trend of the games counters that the aggregator produced. *)
Lemma pipeline_games_trend sort_by (now : Z) (df : list Schema.PlayerActivity)
    (pid plat : string) (ref : Z) :
  ∃ f t,
    compute_trend_features
      (compute_time_window_features sort_by now df pid plat (Some ref)) = Ok f ∧
    f !! "games_trend_7d_vs_14d" = Some (VFloat t) ∧ (0 <= t)%Q ∧ (t <= 1)%Q.
Proof.
  destruct (WindowFacts.time_window_lookups sort_by now df pid plat ref)
    as [(G7 & G14 & _) ((p7 & P7 & _) & (p14 & P14 & _) & _)].
  eexists _, _. split.
  - apply compute_trend_features_eq; eapply reads_lookup; eauto; reflexivity.
  - split; [by simplify_map_eq|]. split.
    + apply trend_of_nonneg, inject_Z_nonneg, WindowFacts.games_in_nonneg.
    + apply trend_of_le_1. rewrite <- Zle_Qle. apply WindowFacts.games_in_mono. lia.
Qed.

End TrendFacts.

(** ** The churn labeler *)

Module ChurnFacts.
Import Py Schema Config Engineer Wording RoundFacts.




End ChurnFacts.

(** ** Sorting and the rating features *)

Module RatingFacts.
Import Py Schema Engineer Wording.

Section sorted_lists.
Context {A : Type} (key : A → Z).

Local Abbreviation by_key := (λ x y : A, key x ≤ key y).

Lemma last_sorted_max (l : list A) (x : A) :
  StronglySorted by_key l → last l = Some x → ∀ y, y ∈ l → key y ≤ key x.
Proof.
  induction 1 as [|z l Hl IH Hz]; intros Hlast y Hy; [inversion Hy|].
  destruct l as [|z' l'].
  - simpl in Hlast. injection Hlast as <-.
    apply list_elem_of_singleton in Hy as ->. lia.
  - rewrite last_cons_cons in Hlast.
    apply elem_of_cons in Hy as [-> | Hy]; [|by apply IH].
    rewrite Forall_forall in Hz. apply Hz, last_Some_elem_of, Hlast.
Qed.

Lemma StronglySorted_filter (P : A → Prop) `{!∀ x, Decision (P x)} (l : list A) :
  StronglySorted by_key l → StronglySorted by_key (filter P l).
Proof.
  induction 1 as [|z l Hl IH Hz]; [constructor|].
  rewrite filter_cons. destruct (decide (P z)); [|exact IH].
  constructor; [exact IH|].
  rewrite Forall_forall in Hz |- *. intros y Hy.
  apply list_elem_of_filter in Hy as [_ Hy]. by apply Hz.
Qed.

Lemma insert_by_perm (x : A) (l : list A) : Concrete.insert_by key x l ≡ₚ x :: l.
Proof.
  induction l as [|y l IH]; simpl; [reflexivity|].
  destruct (key x <=? key y); [reflexivity|].
  rewrite IH. apply Permutation_swap.
Qed.

Lemma insert_by_sorted (x : A) (l : list A) :
  StronglySorted by_key l → StronglySorted by_key (Concrete.insert_by key x l).
Proof.
  induction 1 as [|y l Hl IH Hy]; simpl; [repeat constructor|].
  destruct (Z.leb_spec (key x) (key y)) as [Hle|Hgt].
  - constructor; [by constructor|].
    constructor; [exact Hle|].
    rewrite Forall_forall in Hy |- *. intros z Hz. specialize (Hy z Hz). simpl in *. lia.
  - constructor; [exact IH|].
    rewrite Forall_forall in Hy |- *. intros z Hz.
    rewrite insert_by_perm in Hz.
    apply elem_of_cons in Hz as [-> | Hz]; [lia | by apply Hy].
Qed.

End sorted_lists.

(** The insertion sort is a sort. *)
Lemma stable_sort_is_sort : is_sort Concrete.stable_sort_by.
Proof.
  intros A key l. unfold Concrete.stable_sort_by. split.
  - induction l as [|x l IH]; simpl; [reflexivity|].
    rewrite insert_by_perm. by rewrite IH.
  - induction l as [|x l IH]; simpl; [constructor|].
    by apply insert_by_sorted.
Qed.

Lemma elem_of_with_rating (rows : list PlayerActivity) (ts r : Z) :
  (ts, r) ∈ with_rating rows ↔ ∃ a, rated_in rows a r ∧ game_timestamp a = ts.
Proof.
  unfold with_rating, rated_in. rewrite list_elem_of_omap. split.
  - intros (a & Ha & Hr). destruct (rating a) as [r'|] eqn:Hra; [|discriminate].
    simpl in Hr. injection Hr as <- <-. eauto.
  - intros (a & [Ha Hr] & <-). exists a. split; [exact Ha|]. by rewrite Hr.
Qed.

(** What the performance calculator stores under the two rating keys. *)
Lemma rating_lookups sort_by (now : Z) (df : list PlayerActivity)
    (pid plat : string) (ref : Z) :
  let out := compute_performance_features sort_by now df pid plat (Some ref) in
  let rated := sort_by _ fst (with_rating (player_rows df pid plat)) in
  match last rated with
  | Some (_, cur) =>
      out !! "rating_current" = Some (VInt cur) ∧
      match last (filter (λ r, r.1 ≤ ref - timedelta_days 30) rated) with
      | Some (_, old) => out !! "rating_change_30d" = Some (VInt (cur - old))
      | None => out !! "rating_change_30d" = Some (VInt 0)
      end
  | None =>
      out !! "rating_current" = Some VNone ∧ out !! "rating_change_30d" = Some (VInt 0)
  end.
Proof.
  intros out rated. subst out rated.
  unfold compute_performance_features, ref_or_now. simpl default.
  destruct (last _) as [[ts cur]|]; [|by simplify_map_eq].
  destruct (last _) as [[to old]|]; by simplify_map_eq.
Qed.

End RatingFacts.


(** ** The Chess.com standardizer *)

Module ChessFacts.
Import Py Json Schema Config Standardize ChessWording.


Section with_validation.
Context `{Validation}.

Lemma standardize_missing (PROJECT_ROOT : string) (fs : store) (clock : nat → Z)
    (username : string) (raw_dir : option string) :
  fs !! games_path PROJECT_ROOT raw_dir username = None →
  standardize_chess_com PROJECT_ROOT fs clock username raw_dir = Ok [].
Proof.
  intros Hfs. unfold standardize_chess_com, exists_. fold (games_path PROJECT_ROOT raw_dir username).
  rewrite Hfs. reflexivity.
Qed.

Lemma standardize_not_json (PROJECT_ROOT : string) (fs : store) (clock : nat → Z)
    (username : string) (raw_dir : option string) (text : string) :
  fs !! games_path PROJECT_ROOT raw_dir username = Some (NotJson text) →
  standardize_chess_com PROJECT_ROOT fs clock username raw_dir = Raise JSONDecodeError.
Proof.
  intros Hfs. unfold standardize_chess_com, exists_, _load_json.
  fold (games_path PROJECT_ROOT raw_dir username).
  rewrite Hfs. reflexivity.
Qed.

Lemma standardize_list (PROJECT_ROOT : string) (fs : store) (clock : nat → Z)
    (username : string) (raw_dir : option string) (games : list json) :
  fs !! games_path PROJECT_ROOT raw_dir username = Some (JsonText (JList games)) →
  standardize_chess_com PROJECT_ROOT fs clock username raw_dir
  = chess_com_loop username clock 0 games.
Proof.
  intros Hfs. unfold standardize_chess_com, exists_, _load_json.
  fold (games_path PROJECT_ROOT raw_dir username).
  rewrite Hfs. reflexivity.
Qed.

Lemma activity_not_object (username : string) (clock : nat → Z) (n : nat) (game : json) :
  (∀ members, game ≠ JObj members) →
  chess_com_activity username clock n game = Raise AttributeError.
Proof.
  intros Hno. destruct game; try reflexivity. by destruct (Hno members).
Qed.

(** A record that is no object stops the loop where it stands. *)
Lemma loop_raises_at_stray (username : string) (clock : nat → Z)
    (pre post : list json) (bad : json) (n : nat) :
  (∃ activities, chess_com_loop username clock n pre = Ok activities) →
  (∀ members, bad ≠ JObj members) →
  chess_com_loop username clock n (pre ++ bad :: post) = Raise AttributeError.
Proof.
  intros Hpre Hbad. revert n Hpre.
  induction pre as [|game pre IH]; intros n [activities Hpre]; simpl.
  - by rewrite activity_not_object.
  - simpl in Hpre.
    destruct (chess_com_activity username clock n game) as [[a n']|e]; [|discriminate].
    simpl in *.
    destruct (chess_com_loop username clock n' pre) as [rest|e] eqn:Hrest; [|discriminate].
    rewrite IH; [reflexivity | eauto].
Qed.

End with_validation.

Section with_laws.
Context `{ValidationLaws}.





End with_laws.

End ChessFacts.


(** ** The feature table builder *)

Module BuildFacts.
Import Py Json Schema Config Engineer Build BuildWording.





Lemma unique_first_is_unique : is_unique Concrete.unique_first.
Proof.
  intros l. unfold Concrete.unique_first. split.
  - rewrite reverse_Permutation. apply NoDup_remove_dups.
  - intros pp. by rewrite elem_of_reverse, elem_of_remove_dups, elem_of_reverse.
Qed.


Section with_engine.
Variable sort_by : ∀ A : Type, (A → Z) → list A → list A.





End with_engine.

End BuildFacts.


(** ** Scenarios of the specification, evaluated *)

Module Scenarios.
Import Py Schema Engineer Examples.

(** [games_7d = 10, games_14d = 15] gives a games trend of 0.667, and the
    playtimes 5.0 and 8.0 a playtime trend of 0.625. *)
Example trend_of_test_mapping :
  ∃ f gt pt,
    compute_trend_features test_trend = Ok f ∧
    f !! "games_trend_7d_vs_14d" = Some (VFloat gt) ∧ (gt == 667 # 1000)%Q ∧
    f !! "playtime_trend_7d_vs_14d" = Some (VFloat pt) ∧ (pt == 625 # 1000)%Q.
Proof. eexists _, _, _. repeat split; reflexivity. Qed.

(** With no games in either window both trends are 0.0. *)
Example trend_of_empty_mapping :
  ∃ f,
    compute_trend_features ∅ = Ok f ∧
    f !! "games_trend_7d_vs_14d" = Some (VFloat 0) ∧
    f !! "playtime_trend_7d_vs_14d" = Some (VFloat 0).
Proof. eexists. repeat split; reflexivity. Qed.

(** A player without any activity gets the zeroed counters, the gap of 30.0
    days, 999.0 days since the last game and the churned label. *)
Example features_of_unknown_player :
  compute_time_window_features Concrete.stable_sort_by 0 two_games "nobody" "chess_com"
    (Some (day 30)) = _empty_features "nobody" "chess_com" ∧
  compute_churn_label default_settings 0 two_games "nobody" "chess_com" (Some (day 30))
    !! "days_since_last_game" = Some (VFloat 999) ∧
  compute_churn_label default_settings 0 two_games "nobody" "chess_com" (Some (day 30))
    !! "churned" = Some (VBool true).
Proof. repeat split; reflexivity. Qed.

(** Ties go to the even neighbour, on the scaled value. *)
Example round_examples :
  (round (1 # 8) 2 == 12 # 100)%Q ∧ (round (3 # 8) 2 == 38 # 100)%Q ∧
  (round (2 # 3) 3 == 667 # 1000)%Q ∧ (round (- (1 # 2)) 3 == - (1 # 2))%Q.
Proof. repeat split; reflexivity. Qed.

End Scenarios.


(** * Statements of the specification *)

Import Py Json Schema Config Engineer Wording Examples.







(** C6 (as amended). For every activity collection and reference instant the
    games trend that the pipeline produces lies between 0 and 1: the 7-day
    window is part of the 14-day window, so its count is never the larger.
    The code applies no clamp: only a hand-made mapping with more games in
    7 days than in 14 yields a trend above 1.0. *)
Theorem games_trend_at_most_one sort_by (now : Z) (df : list PlayerActivity)
    (pid plat : string) (ref : Z) :
  (∃ f t,
     compute_trend_features
       (compute_time_window_features sort_by now df pid plat (Some ref)) = Ok f ∧
     f !! "games_trend_7d_vs_14d" = Some (VFloat t) ∧ (0 <= t)%Q ∧ (t <= 1)%Q) ∧
  (∃ f t,
     compute_trend_features more_in_7d = Ok f ∧
     f !! "games_trend_7d_vs_14d" = Some (VFloat t) ∧ (t == 3 # 2)%Q).
Proof.
  split; [apply TrendFacts.pipeline_games_trend|].
  eexists _, _. split; [reflexivity|]. split; reflexivity.
Qed.

(** C6 (as stated) fails: no activity collection and reference instant make
    the pipeline produce a games trend above 1.0. *)
Lemma no_games_trend_above_one :
  ¬ ∃ sort_by now df pid plat ref f t,
      compute_trend_features
        (compute_time_window_features sort_by now df pid plat (Some ref)) = Ok f ∧
      f !! "games_trend_7d_vs_14d" = Some (VFloat t) ∧ (1 < t)%Q.
Proof.
  intros (sort_by & now & df & pid & plat & ref & f & t & Hf & Ht & Hgt).
  destruct (TrendFacts.pipeline_games_trend sort_by now df pid plat ref)
    as (f' & t' & Hf' & Ht' & _ & Hle).
  rewrite Hf in Hf'. injection Hf' as <-. rewrite Ht in Ht'. injection Ht' as <-.
  lra.
Qed.







(** C7 (as amended). For every sort that polars may perform and every
    player with at least one rated activity, [rating_current] is the rating
    of a latest rated activity and [rating_change_30d] is [rating_current]
    minus the rating of a latest rated activity whose timestamp is at or
    before [reference - 30 days], and 0 when every rated activity is after
    that cutoff; with no rated activity at all, [rating_current] is null and
    [rating_change_30d] is 0. *)
Theorem rating_change_uses_latest_at_or_before_cutoff sort_by (now : Z)
    (df : list PlayerActivity) (pid plat : string) (ref : Z) :
  is_sort sort_by →
  ((∀ a r, ¬ rated_in (player_rows df pid plat) a r) →
   compute_performance_features sort_by now df pid plat (Some ref) !! "rating_current"
     = Some VNone ∧
   compute_performance_features sort_by now df pid plat (Some ref) !! "rating_change_30d"
     = Some (VInt 0)) ∧
  ((∃ a r, rated_in (player_rows df pid plat) a r) →
   ∃ cur rc,
     latest_rated (player_rows df pid plat) None cur rc ∧
     compute_performance_features sort_by now df pid plat (Some ref) !! "rating_current"
       = Some (VInt rc) ∧
     ((∀ b rb, rated_in (player_rows df pid plat) b rb →
               ref - timedelta_days 30 < game_timestamp b) →
      compute_performance_features sort_by now df pid plat (Some ref) !! "rating_change_30d"
        = Some (VInt 0)) ∧
     ((∃ b rb, rated_in (player_rows df pid plat) b rb ∧
               game_timestamp b ≤ ref - timedelta_days 30) →
      ∃ old ro,
        latest_rated (player_rows df pid plat) (Some (ref - timedelta_days 30)) old ro ∧
        compute_performance_features sort_by now df pid plat (Some ref) !! "rating_change_30d"
          = Some (VInt (rc - ro)))).
Proof.
  intros Hsort.
  pose proof (RatingFacts.rating_lookups sort_by now df pid plat ref) as Hout.
  simpl in Hout.
  set (rows := player_rows df pid plat) in *.
  set (cutoff := ref - timedelta_days 30) in *.
  destruct (Hsort _ fst (with_rating rows)) as [Hperm Hsorted].
  set (rated := sort_by _ fst (with_rating rows)) in *.
  assert (Hin : ∀ ts r, (ts, r) ∈ rated ↔ ∃ a, rated_in rows a r ∧ game_timestamp a = ts).
  { intros ts r. rewrite Hperm. apply RatingFacts.elem_of_with_rating. }
  split.
  - intros Hnone.
    destruct (last rated) as [[ts r]|] eqn:Hlast; [|exact Hout].
    apply last_Some_elem_of, Hin in Hlast as (a & Ha & _).
    by destruct (Hnone a r).
  - intros (a & r & Ha).
    destruct (last rated) as [[ts rc]|] eqn:Hlast.
    2:{ apply last_None in Hlast.
        assert ((game_timestamp a, r) ∈ rated) as Hmem by (apply Hin; eauto).
        rewrite Hlast in Hmem. inversion Hmem. }
    destruct Hout as [Hcur Hchg].
    pose proof (RatingFacts.last_sorted_max fst _ _ Hsorted Hlast) as Hmax.
    apply last_Some_elem_of, Hin in Hlast as (cur & Hcurin & Hts).
    exists cur, rc. split; [|split; [exact Hcur|split]].
    + split; [exact Hcurin|]. split; [exact I|].
      intros b rb Hb _. rewrite Hts.
      apply (Hmax (game_timestamp b, rb)), Hin. eauto.
    + intros Hlate.
      destruct (last (filter _ rated)) as [[to ro]|] eqn:Hold; [|exact Hchg].
      apply last_Some_elem_of, list_elem_of_filter in Hold as [Hle Hmem].
      apply Hin in Hmem as (b & Hb & Htb). specialize (Hlate b ro Hb).
      simpl in Hle. lia.
    + intros (b & rb & Hb & Hble).
      destruct (last (filter _ rated)) as [[to ro]|] eqn:Hold.
      2:{ apply last_None in Hold.
          assert ((game_timestamp b, rb) ∈ filter (λ r, r.1 ≤ cutoff) rated) as Hmem
            by (apply list_elem_of_filter; split; [exact Hble | apply Hin; eauto]).
          rewrite Hold in Hmem. inversion Hmem. }
      pose proof (RatingFacts.last_sorted_max fst _ _
                    (RatingFacts.StronglySorted_filter fst _ _ Hsorted) Hold) as Hmax'.
      apply last_Some_elem_of, list_elem_of_filter in Hold as [Hle Hmem].
      apply Hin in Hmem as (old & Hold & Hto). simpl in Hle.
      exists old, ro. split; [|exact Hchg].
      split; [exact Hold|]. split; [simpl; lia|].
      intros b' rb' Hb' Hb'le. simpl in Hb'le. rewrite Hto.
      apply (Hmax' (game_timestamp b', rb')), list_elem_of_filter.
      split; [exact Hb'le | apply Hin; eauto].
Qed.

Lemma rating_change_uses_latest_at_or_before_cutoff_witness :
  ∃ cur rc,
    latest_rated (player_rows two_games "p" "chess_com") None cur rc ∧
    compute_performance_features Concrete.stable_sort_by 0 two_games "p" "chess_com"
      (Some (day 55)) !! "rating_current" = Some (VInt rc) ∧
    ((∀ b rb, rated_in (player_rows two_games "p" "chess_com") b rb →
              day 55 - timedelta_days 30 < game_timestamp b) →
     compute_performance_features Concrete.stable_sort_by 0 two_games "p" "chess_com"
       (Some (day 55)) !! "rating_change_30d" = Some (VInt 0)) ∧
    ((∃ b rb, rated_in (player_rows two_games "p" "chess_com") b rb ∧
              game_timestamp b ≤ day 55 - timedelta_days 30) →
     ∃ old ro,
       latest_rated (player_rows two_games "p" "chess_com")
         (Some (day 55 - timedelta_days 30)) old ro ∧
       compute_performance_features Concrete.stable_sort_by 0 two_games "p" "chess_com"
         (Some (day 55)) !! "rating_change_30d" = Some (VInt (rc - ro))).
Proof.
  apply (rating_change_uses_latest_at_or_before_cutoff Concrete.stable_sort_by 0
           two_games "p" "chess_com" (day 55) RatingFacts.stable_sort_is_sort).
  exists (activity "p" "chess_com" (day 20) 1800 "win" (Some 1500)), 1500.
  split; [vm_compute; left | reflexivity].
Defined.

(** C7 (as stated) fails for a rated activity exactly at the cutoff: with
    ratings 1000 at [reference - 30 days] and 1100 at the reference, no rated
    activity is strictly before the cutoff, and yet [rating_change_30d] is
    100, not 0. *)
Lemma rating_change_counts_activity_at_cutoff :
  rated_at_cutoff_features !! "rating_current" = Some (VInt 1100) ∧
  rated_at_cutoff_features !! "rating_change_30d" = Some (VInt 100) ∧
  ∀ a, a ∈ player_rows rated_at_cutoff "p" "chess_com" →
       ¬ game_timestamp a < day 30 - timedelta_days 30.
Proof.
  split; [reflexivity|]. split; [reflexivity|].
  intros a Ha. vm_compute in Ha.
  apply elem_of_cons in Ha as [-> | Ha]; [vm_compute; discriminate|].
  apply list_elem_of_singleton in Ha as ->. vm_compute. discriminate.
Qed.

(** C9 (as amended). [Settings()] puts no bound on [churn_threshold_days]:
    for every integer that the environment gives, negative ones included, the
    settings are built with that value, and with 14 when the variable is
    unset; construction fails only when the text of an [int] variable is not
    an integer. *)
Theorem settings_accept_every_integer_threshold (env : environ) (timeout retries : Z) :
  int_field 30 (GAME_CHURN_REQUEST_TIMEOUT env) = Ok timeout →
  int_field 3 (GAME_CHURN_MAX_RETRIES env) = Ok retries →
  (∀ z, GAME_CHURN_CHURN_THRESHOLD_DAYS env = Some (IsInt z) →
        ∃ st, Settings_new env = Ok st ∧ churn_threshold_days st = z) ∧
  (GAME_CHURN_CHURN_THRESHOLD_DAYS env = None →
        ∃ st, Settings_new env = Ok st ∧ churn_threshold_days st = 14) ∧
  (∀ text, GAME_CHURN_CHURN_THRESHOLD_DAYS env = Some (NotInt text) →
        Settings_new env = Raise ValidationError).
Proof.
  intros Ht Hr. unfold Settings_new.
  repeat split.
  - intros z ->. simpl. rewrite Ht, Hr. simpl. eauto.
  - intros ->. simpl. rewrite Ht, Hr. simpl. eauto.
  - intros text ->. reflexivity.
Qed.

Lemma settings_accept_every_integer_threshold_witness :
  (∀ z, GAME_CHURN_CHURN_THRESHOLD_DAYS negative_threshold_env = Some (IsInt z) →
        ∃ st, Settings_new negative_threshold_env = Ok st ∧ churn_threshold_days st = z) ∧
  (GAME_CHURN_CHURN_THRESHOLD_DAYS negative_threshold_env = None →
        ∃ st, Settings_new negative_threshold_env = Ok st ∧ churn_threshold_days st = 14) ∧
  (∀ text, GAME_CHURN_CHURN_THRESHOLD_DAYS negative_threshold_env = Some (NotInt text) →
        Settings_new negative_threshold_env = Raise ValidationError).
Proof.
  apply (settings_accept_every_integer_threshold negative_threshold_env 30 3);
    reflexivity.
Defined.

(** C9 (as stated) fails: with the threshold set to -5 the settings are
    built, and the churn labeler then runs with it, labelling a player who
    played one second before the reference instant as churned. *)
Lemma negative_threshold_is_accepted :
  ∃ st,
    Settings_new negative_threshold_env = Ok st ∧
    churn_threshold_days st = -5 ∧
    compute_churn_label st 0 one_game "p" "chess_com" (Some 1000000) !! "churned"
      = Some (VBool true).
Proof. eexists. split; [reflexivity|]. split; reflexivity. Qed.

(** C4 (as amended). For every identifier, [standardize_chess_com] returns
    an empty list, without an error, when the player's raw file is missing.
    When the file is there and is no JSON document the call raises the
    decoding error of [_load_json], and when a record of the file is no
    object the loop raises at that record: neither is skipped, and the
    records after it are not standardized. *)
Theorem chess_com_missing_file_is_empty `{Validation} (PROJECT_ROOT : string)
    (fs : store) (clock : nat → Z) (username : string) (raw_dir : option string)
    (text : string) (pre post : list json) (bad : json) :
  (∃ activities, Standardize.chess_com_loop username clock 0 pre = Ok activities) →
  (∀ members, bad ≠ JObj members) →
  Standardize.standardize_chess_com PROJECT_ROOT
    (delete (ChessWording.games_path PROJECT_ROOT raw_dir username) fs)
    clock username raw_dir = Ok [] ∧
  Standardize.standardize_chess_com PROJECT_ROOT
    (<[ChessWording.games_path PROJECT_ROOT raw_dir username := NotJson text]> fs)
    clock username raw_dir = Raise JSONDecodeError ∧
  Standardize.standardize_chess_com PROJECT_ROOT
    (<[ChessWording.games_path PROJECT_ROOT raw_dir username :=
         JsonText (JList (pre ++ bad :: post))]> fs)
    clock username raw_dir = Raise AttributeError.
Proof.
  intros Hpre Hbad. split; [|split].
  - apply ChessFacts.standardize_missing, lookup_delete_eq.
  - apply (ChessFacts.standardize_not_json _ _ _ _ _ text), lookup_insert_eq.
  - rewrite (ChessFacts.standardize_list _ _ _ _ _ (pre ++ bad :: post))
      by apply lookup_insert_eq.
    by apply ChessFacts.loop_raises_at_stray.
Qed.

Lemma chess_com_missing_file_is_empty_witness :
  Standardize.standardize_chess_com (H:=Concrete.strict) "/srv"
    (delete (ChessWording.games_path "/srv" None "Alice") alice_store)
    clock_day_100 "Alice" None = Ok [] ∧
  Standardize.standardize_chess_com (H:=Concrete.strict) "/srv"
    (<[ChessWording.games_path "/srv" None "Alice" := NotJson "[{"]> alice_store)
    clock_day_100 "Alice" None = Raise JSONDecodeError ∧
  Standardize.standardize_chess_com (H:=Concrete.strict) "/srv"
    (<[ChessWording.games_path "/srv" None "Alice" :=
         JsonText (JList ([game_without_end_time] ++ JNull :: [game_with_end_time]))]>
       alice_store)
    clock_day_100 "Alice" None = Raise AttributeError.
Proof.
  apply (chess_com_missing_file_is_empty (H:=Concrete.strict) "/srv" alice_store
           clock_day_100 "Alice" None "[{" [game_without_end_time] [game_with_end_time]
           JNull).
  - eexists. vm_compute. reflexivity.
  - discriminate.
Defined.

(** C4 (as stated) fails on a malformed file: a raw file that was cut off
    makes the standardizer raise the decoding error instead of returning the
    empty list, and a file whose first record is no object makes it raise
    instead of going on with the record that follows. *)
Lemma chess_com_malformed_file_raises :
  Standardize.standardize_chess_com (H:=Concrete.strict) "/srv" truncated_store
    clock_day_100 "Alice" None = Raise JSONDecodeError ∧
  Standardize.standardize_chess_com (H:=Concrete.strict) "/srv" stray_record_store
    clock_day_100 "Alice" None = Raise AttributeError.
Proof. split; reflexivity. Qed.






(** * Further properties of the engine *)

(** ** Shape of the aggregator's output *)

Module ShapeFacts.
Import Py Schema Engineer FeatureKeys.

Lemma gaps_nonempty (t0 t1 : Z) (ts : list Z) : gaps (t0 :: t1 :: ts) ≠ [].
Proof. simpl. discriminate. Qed.

Lemma gaps_of_two_rows {A : Type} (key : A → Z) (l : list A) :
  (2 <= length l)%nat → gaps (key <$> l) ≠ [].
Proof.
  destruct l as [|x [|y l]]; simpl; try lia. intros _. discriminate.
Qed.

Lemma time_window_features_keys_aux sort_by (now : Z) (df : list PlayerActivity)
    (pid plat : string) (reference_date : option Z) :
  dom (compute_time_window_features sort_by now df pid plat reference_date)
  = FeatureKeys.window_keys.
Proof.
  unfold compute_time_window_features.
  destruct (player_rows df pid plat) as [|a rows].
  - unfold _empty_features. rewrite !dom_insert_L, dom_empty_L.
    unfold FeatureKeys.window_keys. simpl. set_solver.
  - set (l := a :: rows).
    set (recent := sort_by _ game_timestamp (since _ l)).
    assert (dom (foldl (window_step (ref_or_now reference_date now) l)
                   (<["platform" := VStr plat]> (<["player_id" := VStr pid]> ∅)) windows)
            = FeatureKeys.window_keys ∖ {["max_gap_days_30d"]}) as Hdom.
    { unfold windows, foldl, window_step. cbn [String.append].
      repeat match goal with
      | |- context [if ?b then _ else _] => destruct b
      end;
      rewrite !dom_insert_L, dom_empty_L; unfold FeatureKeys.window_keys; simpl;
      set_solver. }
    destruct (2 <=? length recent)%nat eqn:Hlen.
    + apply Nat.leb_le in Hlen.
      pose proof (gaps_of_two_rows game_timestamp recent Hlen) as Hgaps.
      destruct (gaps (game_timestamp <$> recent)) as [|g gs]; [done|].
      rewrite dom_insert_L, Hdom. unfold FeatureKeys.window_keys. simpl. set_solver.
    + rewrite dom_insert_L, Hdom. unfold FeatureKeys.window_keys. simpl. set_solver.
Qed.

End ShapeFacts.

(** X1. Whatever the activities and whatever the sort,
    [compute_time_window_features] returns a mapping with exactly the twelve
    window keys: the path for a player without rows and the path for a
    player with rows give the same schema. *)
Theorem time_window_features_keys sort_by (now : Z) (df : list PlayerActivity)
    (pid plat : string) (reference_date : option Z) :
  dom (compute_time_window_features sort_by now df pid plat reference_date)
  = FeatureKeys.window_keys.
Proof. apply ShapeFacts.time_window_features_keys_aux. Qed.

(** ** Sessions and gaps *)

Module SessionFacts.
Import Py Schema Engineer Sessions Wording RoundFacts.

(** What the aggregator stores under the three session keys. *)
Lemma session_lookups sort_by (now : Z) (df : list PlayerActivity)
    (pid plat : string) (ref : Z) :
  let f := compute_time_window_features sort_by now df pid plat (Some ref) in
  let rows := player_rows df pid plat in
  f !! "avg_daily_sessions_7d" = Some (VFloat (avg_sessions_in 7 ref rows)) ∧
  f !! "avg_daily_sessions_14d" = Some (VFloat (avg_sessions_in 14 ref rows)) ∧
  f !! "avg_daily_sessions_30d" = Some (VFloat (avg_sessions_in 30 ref rows)).
Proof.
  intros f rows. subst f rows.
  unfold compute_time_window_features, ref_or_now. simpl default.
  destruct (player_rows df pid plat) as [|a rows] eqn:Hrows; [by repeat split|].
  set (l := a :: rows).
  unfold avg_sessions_in, windows, foldl, window_step. cbn [String.append].
  repeat match goal with
  | |- context [if ?b then _ else _] => destruct b
  | |- context [match gaps ?x with _ => _ end] => destruct (gaps x)
  end; repeat split; by simplify_map_eq.
Qed.

(** What the aggregator stores under [max_gap_days_30d]. *)
Lemma max_gap_lookup sort_by (now : Z) (df : list PlayerActivity)
    (pid plat : string) (ref : Z) :
  is_sort sort_by →
  let f := compute_time_window_features sort_by now df pid plat (Some ref) in
  let recent := sort_by _ game_timestamp
                  (since (ref - timedelta_days 30) (player_rows df pid plat)) in
  match gaps (game_timestamp <$> recent) with
  | g :: gs => f !! "max_gap_days_30d" = Some (VFloat (round (max_of g gs) 2))
  | [] => f !! "max_gap_days_30d" = Some (VFloat 30)
  end.
Proof.
  intros Hsort f recent. subst f.
  unfold compute_time_window_features, ref_or_now. simpl default.
  destruct (player_rows df pid plat) as [|a rows] eqn:Hrows.
  - subst recent. destruct (Hsort _ game_timestamp (since (ref - timedelta_days 30) []))
      as [Hperm _].
    rewrite WindowFacts.since_nil in *. apply Permutation_nil_r in Hperm as ->.
    reflexivity.
  - fold recent.
    destruct (2 <=? length recent)%nat eqn:Hlen.
    + apply Nat.leb_le in Hlen.
      pose proof (ShapeFacts.gaps_of_two_rows game_timestamp recent Hlen) as Hgaps.
      destruct (gaps (game_timestamp <$> recent)); [done | by simplify_map_eq].
    + apply Nat.leb_gt in Hlen.
      destruct recent as [|x [|y recent']]; simpl in *; try lia; by simplify_map_eq.
Qed.

Lemma remove_dups_length_le {A : Type} `{EqDecision A} (l : list A) :
  (length (remove_dups l) <= length l)%nat.
Proof.
  induction l as [|x l IH]; simpl; [lia|].
  destruct (decide_rel elem_of x l); simpl; lia.
Qed.

Lemma remove_dups_nonempty {A : Type} `{EqDecision A} (l : list A) :
  l ≠ [] → remove_dups l ≠ [].
Proof.
  intros Hl Hnil. destruct l as [|x l]; [done|].
  assert (x ∈ remove_dups (x :: l)) as Hx by (apply elem_of_remove_dups; left).
  rewrite Hnil in Hx. inversion Hx.
Qed.

Lemma n_unique_days_le (l : list PlayerActivity) : (n_unique_days l <= length l)%nat.
Proof.
  unfold n_unique_days. etransitivity; [apply remove_dups_length_le|].
  by rewrite length_fmap.
Qed.

Lemma n_unique_days_pos (l : list PlayerActivity) : l ≠ [] → (0 < n_unique_days l)%nat.
Proof.
  intros Hl. unfold n_unique_days.
  assert (remove_dups (date_of ∘ game_timestamp <$> l) ≠ []) as Hne.
  { apply remove_dups_nonempty. by destruct l. }
  destruct (remove_dups _); [done | simpl; lia].
Qed.

Lemma Qdiv_le_compat (x y d : Q) : (0 < d)%Q → (x <= y)%Q → (x / d <= y / d)%Q.
Proof.
  intros Hd Hxy. apply Qmult_le_compat_r; [exact Hxy|].
  apply Qlt_le_weak, Qinv_lt_0_compat, Hd.
Qed.

(** The session average of a window of at most 30 days is positive as soon
    as the window holds a game, and never above the games per day. *)
Lemma avg_sessions_in_bounds (w ref : Z) (rows : list PlayerActivity) :
  0 < w ≤ 30 →
  let g := Windows.games_in w ref rows in
  (0 <= avg_sessions_in w ref rows)%Q ∧
  (0 < g → (0 < avg_sessions_in w ref rows)%Q) ∧
  (g = 0 → avg_sessions_in w ref rows = 0%Q) ∧
  (avg_sessions_in w ref rows <= round (inject_Z g / inject_Z w) 3)%Q.
Proof.
  intros Hw g. subst g. unfold avg_sessions_in, Windows.games_in.
  set (window_df := since (ref - timedelta_days w) rows).
  assert (0 < inject_Z w)%Q as Hwq
    by (change 0%Q with (inject_Z 0); rewrite <- Zlt_Qlt; lia).
  destruct (0 <? length window_df)%nat eqn:Hlen.
  - apply Nat.ltb_lt in Hlen.
    assert (window_df ≠ []) as Hne by (destruct window_df; simpl in *; [lia | done]).
    pose proof (n_unique_days_pos window_df Hne) as Hpos.
    pose proof (n_unique_days_le window_df) as Hle.
    assert (round (1 # 30) 3 <= round (inject_Z (Z.of_nat (n_unique_days window_df))
                                       / inject_Z w) 3)%Q as Hlow.
    { apply round_mono. apply Qle_shift_div_l; [exact Hwq|].
      assert (inject_Z w <= 30)%Q
        by (change 30%Q with (inject_Z 30); rewrite <- Zle_Qle; lia).
      assert (1 <= inject_Z (Z.of_nat (n_unique_days window_df)))%Q
        by (change 1%Q with (inject_Z 1); rewrite <- Zle_Qle; lia).
      lra. }
    assert (0 < round (1 # 30) 3)%Q as H33 by reflexivity.
    split; [lra|]. split; [intros _; lra|]. split; [lia|].
    apply round_mono, Qdiv_le_compat; [exact Hwq|]. rewrite <- Zle_Qle. lia.
  - apply Nat.ltb_ge in Hlen.
    assert (length window_df = 0%nat) as -> by lia.
    change (inject_Z (Z.of_nat 0)) with 0%Q.
    split; [lra|]. split; [lia|]. split; [reflexivity|].
    apply round_nonneg. apply Qle_shift_div_l; [exact Hwq | lra].
Qed.

End SessionFacts.

Module GapFacts.
Import Py Schema Engineer Wording RoundFacts.

Lemma gap_days_nonneg (d : Z) : 0 ≤ d → (0 <= total_seconds d / 86400)%Q.
Proof.
  intros Hd. unfold total_seconds.
  assert (0 <= inject_Z d)%Q by (change 0%Q with (inject_Z 0); by rewrite <- Zle_Qle).
  apply Qle_shift_div_l; [reflexivity|]. apply Qle_shift_div_l; [reflexivity|]. lra.
Qed.

Lemma gap_days_le (d n : Z) : d ≤ timedelta_days n → (total_seconds d / 86400 <= inject_Z n)%Q.
Proof.
  unfold timedelta_days, usec_per_day, total_seconds. intros Hd.
  assert (inject_Z d <= inject_Z (n * (86400 * 1000000)))%Q as Hq
    by (by rewrite <- Zle_Qle).
  rewrite inject_Z_mult in Hq.
  change (inject_Z (86400 * 1000000)) with (86400 * 1000000)%Q in Hq.
  apply Qle_shift_div_r; [reflexivity|]. apply Qle_shift_div_r; [reflexivity|]. lra.
Qed.

(** The largest item is one of the items. *)
Lemma max_of_elem (x : Q) (xs : list Q) : max_of x xs ∈ x :: xs.
Proof.
  unfold max_of. revert x. induction xs as [|y xs IH]; intros x; simpl; [left|].
  destruct (Qlt_le_dec x y).
  - right. apply IH.
  - specialize (IH x). apply elem_of_cons in IH as [-> | IH]; [left | by right; right].
Qed.

(** Gaps between ascending timestamps within [lo, hi]. *)
Lemma gaps_bounds (lo hi n : Z) (ts : list Z) :
  StronglySorted Z.le ts → Forall (λ t, lo ≤ t ≤ hi) ts → hi - lo ≤ timedelta_days n →
  Forall (λ g, (0 <= g)%Q ∧ (g <= inject_Z n)%Q) (gaps ts).
Proof.
  intros Hsorted Hrange Hn.
  induction Hsorted as [|t0 ts Hs IH Hle]; [constructor|].
  destruct ts as [|t1 ts]; [constructor|].
  apply Forall_cons in Hrange as [H0 Hrange].
  change (gaps (t0 :: t1 :: ts))
    with ((total_seconds (t1 - t0) / 86400)%Q :: gaps (t1 :: ts)).
  constructor; [|by apply IH].
  apply Forall_cons in Hle as [Hle _]. apply Forall_cons in Hrange as [H1 _].
  split; [apply gap_days_nonneg; lia | apply gap_days_le; lia].
Qed.

Lemma gaps_nonneg (ts : list Z) :
  StronglySorted Z.le ts → Forall (λ g, (0 <= g)%Q) (gaps ts).
Proof.
  induction 1 as [|t0 ts Hs IH Hle]; [constructor|].
  destruct ts as [|t1 ts]; [constructor|].
  change (gaps (t0 :: t1 :: ts))
    with ((total_seconds (t1 - t0) / 86400)%Q :: gaps (t1 :: ts)).
  constructor; [|exact IH].
  apply Forall_cons in Hle as [Hle _]. apply gap_days_nonneg. lia.
Qed.

Lemma sorted_timestamps {A : Type} (key : A → Z) (l : list A) :
  StronglySorted (λ x y, key x ≤ key y) l → StronglySorted Z.le (key <$> l).
Proof.
  induction 1 as [|x l Hs IH Hle]; simpl; constructor; [exact IH|].
  rewrite Forall_fmap. exact Hle.
Qed.

End GapFacts.



(** X3. With a sort that orders by timestamp, [max_gap_days_30d] is never
    negative; it is the 30.0 of the source when the 30-day window holds fewer
    than two games, and it is at most 30 when no activity of the player is
    later than the reference instant. *)
Theorem max_gap_bounds sort_by (now : Z) (df : list PlayerActivity)
    (pid plat : string) (ref : Z) :
  is_sort sort_by →
  ∃ m,
    compute_time_window_features sort_by now df pid plat (Some ref)
      !! "max_gap_days_30d" = Some (VFloat m) ∧
    (0 <= m)%Q ∧
    (Windows.games_in 30 ref (player_rows df pid plat) < 2 → m = 30%Q) ∧
    ((∀ a, a ∈ player_rows df pid plat → game_timestamp a ≤ ref) → (m <= 30)%Q).
Proof.
  intros Hsort.
  pose proof (SessionFacts.max_gap_lookup sort_by now df pid plat ref Hsort) as Hm.
  simpl in Hm.
  set (rows := player_rows df pid plat) in *.
  set (window_df := since (ref - timedelta_days 30) rows) in *.
  destruct (Hsort _ game_timestamp window_df) as [Hperm Hsorted].
  set (recent := sort_by _ game_timestamp window_df) in *.
  apply GapFacts.sorted_timestamps in Hsorted.
  destruct (gaps (game_timestamp <$> recent)) as [|g gs] eqn:Hgaps.
  - exists 30%Q. split; [exact Hm|]. split; [discriminate|]. split; [done|].
    intros _. apply Qle_refl.
  - exists (round (max_of g gs) 2). split; [exact Hm|].
    pose proof (GapFacts.max_of_elem g gs) as Hmax. rewrite <- Hgaps in Hmax.
    split; [|split].
    + apply RoundFacts.round_nonneg.
      pose proof (GapFacts.gaps_nonneg _ Hsorted) as Hnn.
      rewrite Forall_forall in Hnn. by apply Hnn.
    + intros Hfew. exfalso. unfold Windows.games_in in Hfew. fold rows window_df in Hfew.
      rewrite <- (Permutation_length Hperm) in Hfew.
      destruct recent as [|x [|y recent']]; simpl in *; try discriminate. lia.
    + intros Hpast. apply (RoundFacts.round_le_Z _ 30).
      assert (Forall (λ t, ref - timedelta_days 30 ≤ t ≤ ref) (game_timestamp <$> recent))
        as Hrange.
      { rewrite Forall_fmap, Forall_forall. intros a Ha. rewrite Hperm in Ha.
        apply list_elem_of_filter in Ha as [Hlo Ha]. simpl. split; [exact Hlo|].
        by apply Hpast. }
      pose proof (GapFacts.gaps_bounds _ _ 30 _ Hsorted Hrange ltac:(lia)) as Hb.
      rewrite Forall_forall in Hb. by apply Hb.
Qed.

Lemma max_gap_bounds_witness :
  ∃ m,
    compute_time_window_features Concrete.stable_sort_by 0 two_games "p" "chess_com"
      (Some (day 30)) !! "max_gap_days_30d" = Some (VFloat m) ∧
    (0 <= m)%Q ∧
    (Windows.games_in 30 (day 30) (player_rows two_games "p" "chess_com") < 2 → m = 30%Q) ∧
    ((∀ a, a ∈ player_rows two_games "p" "chess_com" → game_timestamp a ≤ day 30) →
     (m <= 30)%Q).
Proof.
  apply (max_gap_bounds Concrete.stable_sort_by 0 two_games "p" "chess_com" (day 30)
           RatingFacts.stable_sort_is_sort).
Defined.

(** ** The performance calculator *)

Module PerformanceFacts.
Import Py Schema Engineer Performance RoundFacts.

(** What the performance calculator stores under the two win-rate keys. *)
Lemma win_rate_lookups sort_by (now : Z) (df : list PlayerActivity)
    (pid plat : string) (ref : Z) :
  let out := compute_performance_features sort_by now df pid plat (Some ref) in
  let rows := player_rows df pid plat in
  out !! "win_rate_7d" = Some (VFloat (win_rate_in 7 ref rows)) ∧
  out !! "win_rate_30d" = Some (VFloat (win_rate_in 30 ref rows)).
Proof.
  intros out rows. subst out rows.
  unfold compute_performance_features, ref_or_now. simpl default.
  unfold win_rate_in, wins_in, foldl, win_rate_step. cbn [String.append].
  repeat match goal with
  | |- context [if ?b then _ else _] => destruct b
  | |- context [match last ?x with _ => _ end] => destruct (last x) as [[??]|]
  end; split; by simplify_map_eq.
Qed.

Lemma ratio_range (wins total : nat) :
  (wins <= total)%nat → (0 < total)%nat →
  (0 <= inject_Z (Z.of_nat wins) / inject_Z (Z.of_nat total))%Q ∧
  (inject_Z (Z.of_nat wins) / inject_Z (Z.of_nat total) <= 1)%Q.
Proof.
  intros Hle Hpos.
  assert (0 < inject_Z (Z.of_nat total))%Q as Ht
    by (change 0%Q with (inject_Z 0); rewrite <- Zlt_Qlt; lia).
  assert (0 <= inject_Z (Z.of_nat wins))%Q
    by (change 0%Q with (inject_Z 0); rewrite <- Zle_Qle; lia).
  assert (inject_Z (Z.of_nat wins) <= inject_Z (Z.of_nat total))%Q
    by (rewrite <- Zle_Qle; lia).
  split; [apply Qle_shift_div_l | apply Qle_shift_div_r]; try exact Ht; lra.
Qed.

Lemma win_rate_in_range (w ref : Z) (rows : list PlayerActivity) :
  (0 <= win_rate_in w ref rows)%Q ∧ (win_rate_in w ref rows <= 1)%Q.
Proof.
  unfold win_rate_in.
  destruct (0 <? length _)%nat eqn:Hlen; [|split; discriminate].
  apply Nat.ltb_lt in Hlen.
  destruct (ratio_range (length (wins_in w ref rows))
              (length (since (ref - timedelta_days w) rows))) as [Hlo Hhi];
    [apply length_filter | exact Hlen|].
  split; [by apply round_nonneg | by apply (round_le_Z _ 1)].
Qed.





Lemma performance_features_keys_aux sort_by (now : Z) (df : list PlayerActivity)
    (pid plat : string) (reference_date : option Z) :
  dom (compute_performance_features sort_by now df pid plat reference_date)
  = FeatureKeys.performance_keys.
Proof.
  unfold compute_performance_features, foldl, win_rate_step. cbn [String.append].
  repeat match goal with
  | |- context [if ?b then _ else _] => destruct b
  | |- context [match last ?x with _ => _ end] => destruct (last x) as [[??]|]
  end;
  rewrite !dom_insert_L, dom_empty_L; unfold FeatureKeys.performance_keys; simpl;
  set_solver.
Qed.

End PerformanceFacts.



(** X5. Whatever the activities and whatever the sort,
    [compute_performance_features] returns a mapping with exactly the keys
    [win_rate_7d], [win_rate_30d], [rating_current] and [rating_change_30d]. *)
Theorem performance_features_keys sort_by (now : Z) (df : list PlayerActivity)
    (pid plat : string) (reference_date : option Z) :
  dom (compute_performance_features sort_by now df pid plat reference_date)
  = FeatureKeys.performance_keys.
Proof. apply PerformanceFacts.performance_features_keys_aux. Qed.

(** ** The per-player build *)

Module SnapshotFacts.
Import Py Json Schema Config Engineer Wording FeatureKeys.

(** A missing [reference_date] is the clock's reading given explicitly. *)
Lemma time_window_ref sort_by (now : Z) (df : list PlayerActivity) (pid plat : string)
    (reference_date : option Z) :
  compute_time_window_features sort_by now df pid plat reference_date
  = compute_time_window_features sort_by now df pid plat
      (Some (ref_or_now reference_date now)).
Proof. reflexivity. Qed.

Lemma performance_ref sort_by (now : Z) (df : list PlayerActivity) (pid plat : string)
    (reference_date : option Z) :
  compute_performance_features sort_by now df pid plat reference_date
  = compute_performance_features sort_by now df pid plat
      (Some (ref_or_now reference_date now)).
Proof. reflexivity. Qed.

Lemma churn_label_keys (settings : Settings) (now : Z) (df : list PlayerActivity)
    (pid plat : string) (reference_date : option Z) :
  dom (compute_churn_label settings now df pid plat reference_date) = churn_keys.
Proof.
  unfold compute_churn_label. destruct (player_rows df pid plat);
    rewrite !dom_insert_L, dom_empty_L; unfold churn_keys; simpl; set_solver.
Qed.

(** A peer mapping that was returned has the two social keys, the first of
    them a count. *)
Lemma social_features_shape (PROJECT_ROOT : string) (fs : store) (pid : string)
    (raw_dir : option string) (social : gmap string value) :
  compute_social_features PROJECT_ROOT fs pid raw_dir = Ok social →
  dom social = social_keys ∧
  ∃ n, 0 ≤ n ∧ social !! "unique_peers_30d" = Some (VInt n).
Proof.
  unfold compute_social_features.
  destruct (fs !! _) as [[text|doc]|]; [discriminate| |].
  - destruct doc as [| | | |s|peers|members]; try discriminate.
    + destruct s; [|discriminate]. intros [= <-].
      split; [rewrite !dom_insert_L, dom_empty_L; unfold social_keys; simpl; set_solver|].
      exists 0. split; [lia | by simplify_map_eq].
    + destruct (sum_peer_games (VInt 0) peers) as [total|e]; [|discriminate].
      intros [= <-].
      split; [rewrite !dom_insert_L, dom_empty_L; unfold social_keys; simpl; set_solver|].
      exists (Z.of_nat (length peers)). split; [lia | by simplify_map_eq].
    + destruct members; [|discriminate]. intros [= <-].
      split; [rewrite !dom_insert_L, dom_empty_L; unfold social_keys; simpl; set_solver|].
      exists 0. split; [lia | by simplify_map_eq].
  - intros [= <-].
    split; [rewrite !dom_insert_L, dom_empty_L; unfold social_keys; simpl; set_solver|].
    exists 0. split; [lia | by simplify_map_eq].
Qed.

Lemma lookup_update_old (features other : gmap string value) (keys : gset string) (k : string) :
  dom other = keys → k ∉ keys → update features other !! k = features !! k.
Proof.
  intros Hdom Hk. unfold update. apply lookup_union_r, not_elem_of_dom. by rewrite Hdom.
Qed.

Lemma lookup_update_new (features other : gmap string value) (k : string) (v : value) :
  other !! k = Some v → update features other !! k = Some v.
Proof. intros Hk. unfold update. by apply lookup_union_Some_l. Qed.

End SnapshotFacts.

Module BuildPlayerFacts.
Import Py Json Schema Config Engineer Wording FeatureKeys SnapshotFacts.

(** The score of a mapping whose five inputs are stored as non-negative
    numbers. *)
Lemma engagement_of_lookups (features : gmap string value) (g n : Z) (a t w : Q) :
  features !! "games_30d" = Some (VInt g) →
  features !! "avg_daily_sessions_30d" = Some (VFloat a) →
  features !! "games_trend_7d_vs_14d" = Some (VFloat t) →
  features !! "win_rate_30d" = Some (VFloat w) →
  features !! "unique_peers_30d" = Some (VInt n) →
  0 ≤ g → (0 <= a)%Q → (0 <= t)%Q → (0 <= w)%Q → 0 ≤ n →
  ∃ s, compute_engagement_score features = Ok s ∧ (0 <= s)%Q ∧ (s <= 100)%Q.
Proof.
  intros Hg Ha Ht Hw Hn Hg0 Ha0 Ht0 Hw0 Hn0.
  rewrite (EngagementFacts.compute_engagement_score_eq features
             (inject_Z g) a t w (inject_Z n));
    try (eapply TrendFacts.reads_lookup; [eassumption | reflexivity]).
  eexists. split; [reflexivity|].
  apply EngagementFacts.clamped_score_range.
  pose proof (EngagementFacts.raw_score_nonneg (inject_Z g) a t w (inject_Z n)
                (TrendFacts.inject_Z_nonneg g Hg0) Ha0 Ht0 Hw0
                (TrendFacts.inject_Z_nonneg n Hn0)) as Hraw.
  unfold raw_score in Hraw. lra.
Qed.

(** What the first three calculators leave in the mapping. *)
Lemma after_performance sort_by (clock : nat → Z) (df : list PlayerActivity)
    (pid plat : string) (reference_date : option Z) :
  ∃ features g a t w,
    compute_trend_features
      (compute_time_window_features sort_by (clock 0%nat) df pid plat reference_date)
      = Ok features ∧
    let merged :=
      update features
        (compute_performance_features sort_by (clock 1%nat) df pid plat reference_date) in
    dom merged = performance_keys ∪ (trend_keys ∪ window_keys) ∧
    merged !! "games_30d" = Some (VInt g) ∧
    merged !! "avg_daily_sessions_30d" = Some (VFloat a) ∧
    merged !! "games_trend_7d_vs_14d" = Some (VFloat t) ∧
    merged !! "win_rate_30d" = Some (VFloat w) ∧
    0 ≤ g ∧ (0 <= a)%Q ∧ (0 <= t)%Q ∧ (0 <= w)%Q.
Proof.
  rewrite time_window_ref, performance_ref.
  set (ref0 := ref_or_now reference_date (clock 0%nat)).
  set (ref1 := ref_or_now reference_date (clock 1%nat)).
  pose proof (ShapeFacts.time_window_features_keys_aux sort_by (clock 0%nat) df pid plat (Some ref0))
    as Hdom0.
  destruct (WindowFacts.time_window_lookups sort_by (clock 0%nat) df pid plat ref0)
    as [(G7 & G14 & G30) ((p7 & P7 & _) & (p14 & P14 & _) & _)].
  destruct (SessionFacts.session_lookups sort_by (clock 0%nat) df pid plat ref0)
    as (_ & _ & A30).
  destruct (PerformanceFacts.win_rate_lookups sort_by (clock 1%nat) df pid plat ref1)
    as [_ W30].
  pose proof (PerformanceFacts.performance_features_keys_aux sort_by (clock 1%nat) df pid plat (Some ref1))
    as HdomP.
  set (F0 := compute_time_window_features sort_by (clock 0%nat) df pid plat (Some ref0))
    in *.
  set (P := compute_performance_features sort_by (clock 1%nat) df pid plat (Some ref1))
    in *.
  eexists _, _, _, _, _. split.
  { apply TrendFacts.compute_trend_features_eq;
      (eapply TrendFacts.reads_lookup; [eassumption | reflexivity]). }
  cbv zeta. split; [|split; [|split; [|split; [|split]]]].
  - unfold update. rewrite dom_union_L, !dom_insert_L, HdomP, Hdom0.
    unfold trend_keys. simpl. set_solver.
  - rewrite (lookup_update_old _ _ _ _ HdomP) by (refine (bool_decide_unpack _ _); vm_compute; exact I).
    rewrite !lookup_insert_ne by done. exact G30.
  - rewrite (lookup_update_old _ _ _ _ HdomP) by (refine (bool_decide_unpack _ _); vm_compute; exact I).
    rewrite !lookup_insert_ne by done. exact A30.
  - rewrite (lookup_update_old _ _ _ _ HdomP) by (refine (bool_decide_unpack _ _); vm_compute; exact I).
    rewrite lookup_insert_ne by done. apply lookup_insert_eq.
  - apply lookup_update_new. exact W30.
  - split; [apply WindowFacts.games_in_nonneg|].
    split; [apply SessionFacts.avg_sessions_in_bounds; lia|].
    split; [apply TrendFacts.trend_of_nonneg, TrendFacts.inject_Z_nonneg,
            WindowFacts.games_in_nonneg|].
    apply PerformanceFacts.win_rate_in_range.
Qed.

(** An error of the peer calculator is the error of an OpenDota build. *)
Lemma peer_error_propagates sort_by (PROJECT_ROOT : string)
    (settings : Settings) (fs : store) (clock : nat → Z) (df : list PlayerActivity)
    (pid : string) (reference_date : option Z) (raw_dir : option string) (e : exn) :
  compute_social_features PROJECT_ROOT fs pid raw_dir = Raise e →
  build_features_for_player sort_by PROJECT_ROOT settings fs clock df pid "opendota"
    reference_date raw_dir = Raise e.
Proof.
  intros Hs.
  destruct (after_performance sort_by clock df pid "opendota" reference_date)
    as (F1 & g & a & t & w & Htrend & _).
  unfold build_features_for_player. rewrite Htrend.
  cbn [mbind pyresult_bind bind mret pyresult_ret String.eqb Ascii.eqb Bool.eqb].
  rewrite Hs. reflexivity.
Qed.

(** A key whose build raises makes the loop over the keys raise. *)
Lemma build_rows_raises sort_by (PROJECT_ROOT : string) (settings : Settings)
    (fs : store) (activities : list PlayerActivity) (pid : string) (e : exn)
    (keys : list (string * string)) :
  compute_social_features PROJECT_ROOT fs pid (Some (RAW_DIR PROJECT_ROOT)) = Raise e →
  (pid, "opendota") ∈ keys →
  ∀ clock, ∃ e',
    Build.build_rows sort_by PROJECT_ROOT settings fs clock activities keys = Raise e'.
Proof.
  intros Hs. induction keys as [|pp keys IH]; intros Hin clock; [inversion Hin|].
  simpl.
  destruct (decide (pp = (pid, "opendota"))) as [-> | Hne].
  - simpl. rewrite (peer_error_propagates _ _ _ _ _ _ _ _ _ e Hs). eauto.
  - apply elem_of_cons in Hin as [Heq | Hin]; [by destruct Hne|].
    destruct (build_features_for_player _ _ _ _ _ _ _ _ _ _) as [f|e0]; [|eauto].
    cbn [mbind pyresult_bind bind mret pyresult_ret].
    destruct (IH Hin (λ i, clock (S (S (S i))))) as [e' ->]. eauto.
Qed.

(** The sum of the peers' games, when each is an integer. *)
Lemma sum_peer_games_ints (peers : list json) (games : list Z) (acc : Z) :
  Forall2 (λ p z, Social.games_of p = Some z) peers games →
  sum_peer_games (VInt acc) peers = Ok (VInt (acc + Social.sum_Z games)).
Proof.
  intros Hall. revert acc.
  induction Hall as [|p z peers games Hp _ IH]; intros acc; simpl.
  - f_equal. f_equal. lia.
  - unfold Social.games_of in Hp. destruct p as [| | | | | |members]; try discriminate.
    destruct (default (JInt 0) (obj_get "games" members)); try discriminate.
    injection Hp as ->. simpl. rewrite IH. f_equal. f_equal. lia.
Qed.

End BuildPlayerFacts.

(** X6. [build_features_for_player] returns for every player of a platform
    other than OpenDota, and for an OpenDota player whenever the peer
    calculator returns: the trend and the score never fail on what the
    earlier calculators produce. The row then has exactly the 23 keys of
    the feature table, an engagement score in [0,100], and zero peer counts
    off OpenDota. *)
Theorem build_features_for_player_total sort_by (PROJECT_ROOT : string)
    (settings : Settings) (fs : store) (clock : nat → Z) (df : list PlayerActivity)
    (pid plat : string) (reference_date : option Z) (raw_dir : option string) :
  (plat = "opendota" →
   ∃ social, compute_social_features PROJECT_ROOT fs pid raw_dir = Ok social) →
  ∃ f s,
    build_features_for_player sort_by PROJECT_ROOT settings fs clock df pid plat
      reference_date raw_dir = Ok f ∧
    dom f = FeatureKeys.snapshot_keys ∧
    f !! "engagement_score" = Some (VFloat s) ∧ (0 <= s)%Q ∧ (s <= 100)%Q ∧
    (plat ≠ "opendota" →
     f !! "unique_peers_30d" = Some (VInt 0) ∧ f !! "peer_games_30d" = Some (VInt 0)).
Proof.
  intros Hsocial.
  destruct (BuildPlayerFacts.after_performance sort_by clock df pid plat reference_date)
    as (F1 & g & a & t & w & Htrend & Hdom & Hg & Ha & Ht & Hw & Hg0 & Ha0 & Ht0 & Hw0).
  unfold build_features_for_player. rewrite Htrend.
  cbn [mbind pyresult_bind bind mret pyresult_ret].
  set (merged := update F1 _) in *.
  pose proof (SnapshotFacts.churn_label_keys settings (clock 2%nat) df pid plat
                reference_date) as Hchurn.
  set (churn := compute_churn_label settings (clock 2%nat) df pid plat reference_date) in *.
  destruct (String.eqb plat "opendota") eqn:Hplat.
  - apply String.eqb_eq in Hplat. destruct (Hsocial Hplat) as [social Hs].
    rewrite Hs. cbn [mbind pyresult_bind bind mret pyresult_ret].
    destruct (SnapshotFacts.social_features_shape _ _ _ _ _ Hs) as (Hdoms & n & Hn0 & Hn).
    destruct (BuildPlayerFacts.engagement_of_lookups (update merged social) g n a t w)
      as (s & Hscore & Hs0 & Hs100); try done;
      try (rewrite (SnapshotFacts.lookup_update_old _ _ _ _ Hdoms)
             by (refine (bool_decide_unpack _ _); vm_compute; exact I); done).
    { by apply SnapshotFacts.lookup_update_new. }
    rewrite Hscore. cbn [mbind pyresult_bind bind mret pyresult_ret].
    exists (update (<["engagement_score" := VFloat s]> (update merged social)) churn), s.
    split; [reflexivity|]. split; [|split; [|done]].
    + unfold update. rewrite dom_union_L, dom_insert_L, dom_union_L, Hchurn, Hdoms, Hdom.
      unfold FeatureKeys.snapshot_keys. set_solver.
    + rewrite (SnapshotFacts.lookup_update_old _ _ _ _ Hchurn)
        by (refine (bool_decide_unpack _ _); vm_compute; exact I).
      apply lookup_insert_eq.
  - apply String.eqb_neq in Hplat.
    cbn [mbind pyresult_bind bind mret pyresult_ret].
    set (F3 := <["peer_games_30d" := VInt 0]> (<["unique_peers_30d" := VInt 0]> merged)).
    destruct (BuildPlayerFacts.engagement_of_lookups F3 g 0 a t w)
      as (s & Hscore & Hs0 & Hs100); try done;
      try (subst F3; by rewrite !lookup_insert_ne by done).
    { subst F3. rewrite lookup_insert_ne by done. apply lookup_insert_eq. }
    rewrite Hscore. cbn [mbind pyresult_bind bind mret pyresult_ret].
    exists (update (<["engagement_score" := VFloat s]> F3) churn), s.
    split; [reflexivity|]. split; [|split; [|split; [done|split; [done|]]]].
    + unfold update. subst F3. rewrite dom_union_L, !dom_insert_L, Hchurn, Hdom.
      unfold FeatureKeys.snapshot_keys, FeatureKeys.social_keys. simpl. set_solver.
    + rewrite (SnapshotFacts.lookup_update_old _ _ _ _ Hchurn)
        by (refine (bool_decide_unpack _ _); vm_compute; exact I).
      apply lookup_insert_eq.
    + intros _. subst F3.
      rewrite !(SnapshotFacts.lookup_update_old _ _ _ _ Hchurn)
        by (refine (bool_decide_unpack _ _); vm_compute; exact I).
      split; by simplify_map_eq.
Qed.

Lemma build_features_for_player_total_witness :
  ∃ f s,
    build_features_for_player Concrete.stable_sort_by "/srv" default_settings peers_store
      clock_day_100 two_games "p" "chess_com" None None = Ok f ∧
    dom f = FeatureKeys.snapshot_keys ∧
    f !! "engagement_score" = Some (VFloat s) ∧ (0 <= s)%Q ∧ (s <= 100)%Q ∧
    ("chess_com" ≠ "opendota" →
     f !! "unique_peers_30d" = Some (VInt 0) ∧ f !! "peer_games_30d" = Some (VInt 0)).
Proof.
  apply (build_features_for_player_total Concrete.stable_sort_by "/srv" default_settings
           peers_store clock_day_100 two_games "p" "chess_com" None None).
  discriminate.
Defined.

(** X7. For an OpenDota player an error of the peer calculator is the error
    of the whole build: a peer file that exists but cannot be decoded or has
    the wrong shape makes [build_features_for_player] raise, with no row for
    the player. *)
Theorem build_features_for_player_peer_error sort_by (PROJECT_ROOT : string)
    (settings : Settings) (fs : store) (clock : nat → Z) (df : list PlayerActivity)
    (pid : string) (reference_date : option Z) (raw_dir : option string) (e : exn) :
  compute_social_features PROJECT_ROOT fs pid raw_dir = Raise e →
  build_features_for_player sort_by PROJECT_ROOT settings fs clock df pid "opendota"
    reference_date raw_dir = Raise e.
Proof. apply BuildPlayerFacts.peer_error_propagates. Qed.

Lemma build_features_for_player_peer_error_witness :
  build_features_for_player Concrete.stable_sort_by "/srv" default_settings
    (<["/srv/data/01_raw/opendota/77_peers.json" := NotJson "[{"]> peers_store)
    clock_day_100 dota_match "77" "opendota" None None = Raise JSONDecodeError.
Proof.
  apply (build_features_for_player_peer_error Concrete.stable_sort_by "/srv"
           default_settings
           (<["/srv/data/01_raw/opendota/77_peers.json" := NotJson "[{"]> peers_store)
           clock_day_100 dota_match "77" None None JSONDecodeError).
  reflexivity.
Defined.

(** X8. The peer calculator returns zero counts when the player has no peer
    file, and for a peer file that is a list of objects with integer [games]
    (or none) it returns the number of peers and the sum of their games. *)
Theorem social_features_of_peer_list (PROJECT_ROOT : string) (fs : store) (pid : string)
    (raw_dir : option string) (peers : list json) (games : list Z) :
  Forall2 (λ p z, Social.games_of p = Some z) peers games →
  compute_social_features PROJECT_ROOT
    (delete (Social.peers_path PROJECT_ROOT raw_dir pid) fs) pid raw_dir
  = Ok (<["peer_games_30d" := VInt 0]> (<["unique_peers_30d" := VInt 0]> ∅)) ∧
  compute_social_features PROJECT_ROOT
    (<[Social.peers_path PROJECT_ROOT raw_dir pid := JsonText (JList peers)]> fs)
    pid raw_dir
  = Ok (<["peer_games_30d" := VInt (Social.sum_Z games)]>
        (<["unique_peers_30d" := VInt (Z.of_nat (length peers))]>
         (<["peer_games_30d" := VInt 0]> (<["unique_peers_30d" := VInt 0]> ∅)))).
Proof.
  intros Hgames. unfold compute_social_features.
  fold (Social.peers_path PROJECT_ROOT raw_dir pid). split.
  - by rewrite lookup_delete_eq.
  - rewrite lookup_insert_eq.
    rewrite (BuildPlayerFacts.sum_peer_games_ints peers games 0 Hgames). reflexivity.
Qed.

Lemma social_features_of_peer_list_witness :
  compute_social_features "/srv"
    (delete (Social.peers_path "/srv" None "77") peers_store) "77" None
  = Ok (<["peer_games_30d" := VInt 0]> (<["unique_peers_30d" := VInt 0]> ∅)) ∧
  compute_social_features "/srv"
    (<[Social.peers_path "/srv" None "77" :=
         JsonText (JList [JObj [("account_id", JInt 99); ("games", JInt 10)];
                          JObj [("account_id", JInt 98)]])]> peers_store)
    "77" None
  = Ok (<["peer_games_30d" := VInt (Social.sum_Z [10; 0])]>
        (<["unique_peers_30d" :=
             VInt (Z.of_nat (length [JObj [("account_id", JInt 99); ("games", JInt 10)];
                                     JObj [("account_id", JInt 98)]]))]>
         (<["peer_games_30d" := VInt 0]> (<["unique_peers_30d" := VInt 0]> ∅)))).
Proof.
  apply (social_features_of_peer_list "/srv" peers_store "77" None
           [JObj [("account_id", JInt 99); ("games", JInt 10)];
            JObj [("account_id", JInt 98)]] [10; 0]).
  repeat constructor.
Defined.

(** X9. One OpenDota player whose peer file makes the peer calculator raise
    aborts the whole feature table: in whatever order the players are listed
    and whatever the clock reads, [build_all_features] raises and returns no
    row for any player. *)
Theorem build_all_features_aborts_on_peer_error sort_by unique (PROJECT_ROOT : string)
    (settings : Settings) (fs : store) (clock : nat → Z)
    (activities : list PlayerActivity) (a : PlayerActivity) (e : exn) :
  BuildWording.is_unique unique →
  a ∈ activities → platform a = "opendota" →
  compute_social_features PROJECT_ROOT fs (player_id a) (Some (RAW_DIR PROJECT_ROOT))
    = Raise e →
  ∃ e', Build.build_all_features sort_by unique PROJECT_ROOT settings fs clock activities
        = Raise e'.
Proof.
  intros Hunique Ha Hplat Hs. unfold Build.build_all_features.
  destruct activities as [|b activities]; [inversion Ha|].
  apply (BuildPlayerFacts.build_rows_raises _ _ _ _ _ (player_id a) e); [exact Hs|].
  apply Hunique. rewrite <- Hplat.
  apply (list_elem_of_fmap_2 (λ a, (player_id a, platform a))), Ha.
Qed.

Lemma build_all_features_aborts_on_peer_error_witness :
  ∃ e', Build.build_all_features Concrete.stable_sort_by Concrete.unique_first "/srv"
          default_settings
          (<["/srv/data/01_raw/opendota/77_peers.json" := NotJson "[{"]> peers_store)
          clock_day_100 mixed_activities = Raise e'.
Proof.
  apply (build_all_features_aborts_on_peer_error Concrete.stable_sort_by
           Concrete.unique_first "/srv" default_settings
           (<["/srv/data/01_raw/opendota/77_peers.json" := NotJson "[{"]> peers_store)
           clock_day_100 mixed_activities
           (activity "77" "opendota" (day 90) 2400 "win" None) JSONDecodeError
           BuildFacts.unique_first_is_unique).
  - vm_compute. right. right. left.
  - reflexivity.
  - reflexivity.
Defined.

(** ** Monotonicity of the label and of the score *)

Module MonotoneFacts.
Import Py Schema Config Engineer Wording RoundFacts.

Lemma exact_days_mono (ref ref' last : Z) :
  ref ≤ ref' → (exact_days ref last <= exact_days ref' last)%Q.
Proof.
  intros Href. unfold exact_days, total_seconds.
  apply Qmult_le_compat_r; [|discriminate].
  apply Qmult_le_compat_r; [|discriminate].
  rewrite <- Zle_Qle. lia.
Qed.




End MonotoneFacts.

(** X10. The churn label is monotone: a player labelled churned at a
    reference instant with a threshold stays churned at every later reference
    instant and under every smaller threshold, and the reported days since the
    last game do not decrease with the reference instant. *)
Theorem churn_label_monotone (settings settings' : Settings) (now now' : Z)
    (df : list PlayerActivity) (pid plat : string) (ref ref' : Z) :
  ref ≤ ref' →
  churn_threshold_days settings' ≤ churn_threshold_days settings →
  (compute_churn_label settings now df pid plat (Some ref) !! "churned"
     = Some (VBool true) →
   compute_churn_label settings' now' df pid plat (Some ref') !! "churned"
     = Some (VBool true)) ∧
  ∃ d d',
    compute_churn_label settings now df pid plat (Some ref) !! "days_since_last_game"
      = Some (VFloat d) ∧
    compute_churn_label settings' now' df pid plat (Some ref') !! "days_since_last_game"
      = Some (VFloat d') ∧
    (d <= d')%Q.
Proof.
  intros Href Hthr. unfold compute_churn_label, ref_or_now. simpl default.
  destruct (player_rows df pid plat) as [|a rest].
  - split; [done|]. exists 999%Q, 999%Q.
    split; [by simplify_map_eq|]. split; [by simplify_map_eq | apply Qle_refl].
  - fold (exact_days ref (max_timestamp a rest)).
    fold (exact_days ref' (max_timestamp a rest)).
    pose proof (MonotoneFacts.exact_days_mono ref ref' (max_timestamp a rest) Href) as Hd.
    split.
    + rewrite !lookup_insert_eq. intros [= Hc]. do 2 f_equal.
      apply Qle_bool_iff in Hc. apply Qle_bool_iff.
      assert (inject_Z (churn_threshold_days settings')
              <= inject_Z (churn_threshold_days settings))%Q by (by rewrite <- Zle_Qle).
      lra.
    + eexists _, _. split; [by simplify_map_eq|]. split; [by simplify_map_eq|].
      by apply RoundFacts.round_mono.
Qed.

Lemma churn_label_monotone_witness :
  (compute_churn_label default_settings 0 two_games "p" "chess_com" (Some (day 45))
     !! "churned" = Some (VBool true) →
   compute_churn_label default_settings 0 two_games "p" "chess_com" (Some (day 50))
     !! "churned" = Some (VBool true)) ∧
  ∃ d d',
    compute_churn_label default_settings 0 two_games "p" "chess_com" (Some (day 45))
      !! "days_since_last_game" = Some (VFloat d) ∧
    compute_churn_label default_settings 0 two_games "p" "chess_com" (Some (day 50))
      !! "days_since_last_game" = Some (VFloat d') ∧
    (d <= d')%Q.
Proof.
  apply (churn_label_monotone default_settings default_settings 0 0 two_games
           "p" "chess_com" (day 45) (day 50)).
  - vm_compute. discriminate.
  - reflexivity.
Defined.



(** ** More on the Chess.com standardizer *)

Module ChessMoreFacts.
Import Py Json Schema Config Standardize ChessWording.

Lemma chess_result_values (result_str : json) :
  chess_result result_str = "win" ∨ chess_result result_str = "loss"
  ∨ chess_result result_str = "draw".
Proof. unfold chess_result. repeat case_match; auto. Qed.

Lemma bind_Ok {A B : Type} (m : pyresult A) (k : A → pyresult B) (b : B) :
  m ≫= k = Ok b → ∃ a, m = Ok a ∧ k a = Ok b.
Proof. destruct m as [a|e]; [eauto | discriminate]. Qed.

Section with_validation.
Context `{Validation}.

(** What every activity of the loop's body looks like. *)
Lemma activity_invariants (username : string) (clock : nat → Z) (n n' : nat)
    (game : json) (a : PlayerActivity) :
  chess_com_activity username clock n game = Ok (a, n') →
  player_id a = lower username ∧ platform a = "chess_com" ∧ duration_seconds a = 0 ∧
  (result a = "win" ∨ result a = "loss" ∨ result a = "draw").
Proof.
  unfold chess_com_activity, PlayerActivity_new. intros Hbody.
  apply bind_Ok in Hbody as (ts & _ & Hbody).
  apply bind_Ok in Hbody as ([game_dt n0] & _ & Hbody).
  apply bind_Ok in Hbody as (white & _ & Hbody).
  apply bind_Ok in Hbody as (black & _ & Hbody).
  apply bind_Ok in Hbody as (white_name & _ & Hbody).
  apply bind_Ok in Hbody as (white_lower & _ & Hbody).
  apply bind_Ok in Hbody as (result_str & _ & Hbody).
  apply bind_Ok in Hbody as (raw_rating & _ & Hbody).
  apply bind_Ok in Hbody as (time_control & _ & Hbody).
  apply bind_Ok in Hbody as (act & Hact & Hbody).
  apply bind_Ok in Hact as (r & _ & Hact).
  apply bind_Ok in Hact as (mode & _ & Hact).
  injection Hact as <-. injection Hbody as <- _. simpl.
  repeat split. apply chess_result_values.
Qed.

Lemma loop_invariants (username : string) (clock : nat → Z) (games : list json) :
  ∀ n activities,
    chess_com_loop username clock n games = Ok activities →
    Forall (λ a, player_id a = lower username ∧ platform a = "chess_com" ∧
                 duration_seconds a = 0 ∧
                 (result a = "win" ∨ result a = "loss" ∨ result a = "draw"))
           activities.
Proof.
  induction games as [|game games IH]; intros n activities Hloop; simpl in Hloop.
  - injection Hloop as <-. constructor.
  - apply bind_Ok in Hloop as ([a n'] & Ha & Hloop).
    apply bind_Ok in Hloop as (rest & Hrest & Hloop).
    injection Hloop as <-. constructor; [by eapply activity_invariants | by eapply IH].
Qed.

Lemma standardize_invariants (PROJECT_ROOT : string) (fs : store) (clock : nat → Z)
    (username : string) (raw_dir : option string) (activities : list PlayerActivity) :
  standardize_chess_com PROJECT_ROOT fs clock username raw_dir = Ok activities →
  Forall (λ a, player_id a = lower username ∧ platform a = "chess_com" ∧
               duration_seconds a = 0 ∧
               (result a = "win" ∨ result a = "loss" ∨ result a = "draw"))
         activities.
Proof.
  unfold standardize_chess_com.
  destruct (negb _); [intros [= <-]; constructor|].
  intros Hstd. apply bind_Ok in Hstd as (games & _ & Hstd).
  apply bind_Ok in Hstd as (items & _ & Hstd). by eapply loop_invariants.
Qed.

(** The body of the loop reads the username through [lower] only. *)
Lemma activity_lower (u1 u2 : string) (clock : nat → Z) (n : nat) (game : json) :
  lower u1 = lower u2 →
  chess_com_activity u1 clock n game = chess_com_activity u2 clock n game.
Proof. intros Hl. unfold chess_com_activity. by rewrite Hl. Qed.

Lemma loop_lower (u1 u2 : string) (clock : nat → Z) (games : list json) :
  lower u1 = lower u2 →
  ∀ n, chess_com_loop u1 clock n games = chess_com_loop u2 clock n games.
Proof.
  intros Hl. induction games as [|game games IH]; intros n; simpl; [reflexivity|].
  rewrite (activity_lower u1 u2) by exact Hl.
  destruct (chess_com_activity u2 clock n game) as [[a n']|e]; simpl; [|reflexivity].
  by rewrite IH.
Qed.

Lemma standardize_lower (PROJECT_ROOT : string) (fs : store) (clock : nat → Z)
    (u1 u2 : string) (raw_dir : option string) :
  lower u1 = lower u2 →
  standardize_chess_com PROJECT_ROOT fs clock u1 raw_dir
  = standardize_chess_com PROJECT_ROOT fs clock u2 raw_dir.
Proof.
  intros Hl. unfold standardize_chess_com. rewrite Hl.
  destruct (negb _); [reflexivity|].
  destruct (_load_json fs _) as [games|e]; simpl; [|reflexivity].
  destruct (iterate games) as [items|e]; simpl; [|reflexivity].
  by apply loop_lower.
Qed.

End with_validation.

End ChessMoreFacts.

(** X12. Every activity that [standardize_chess_com] returns carries the
    lower-cased username as [player_id], the platform [chess_com], a duration
    of 0 seconds and one of the results win, loss and draw, whatever the raw
    file holds and however the ratings validate. *)
Theorem chess_com_activities_are_normalized `{Validation} (PROJECT_ROOT : string)
    (fs : store) (clock : nat → Z) (username : string) (raw_dir : option string)
    (activities : list PlayerActivity) :
  Standardize.standardize_chess_com PROJECT_ROOT fs clock username raw_dir = Ok activities →
  Forall (λ a, player_id a = lower username ∧ platform a = "chess_com" ∧
               duration_seconds a = 0 ∧
               (result a = "win" ∨ result a = "loss" ∨ result a = "draw"))
         activities.
Proof. apply ChessMoreFacts.standardize_invariants. Qed.

(** X13. [standardize_chess_com] does not tell usernames apart that differ in
    the case of ASCII letters only: it reads the same file for them and
    returns the same activities or raises the same error. *)
Theorem chess_com_username_case_is_ignored `{Validation} (PROJECT_ROOT : string)
    (fs : store) (clock : nat → Z) (u1 u2 : string) (raw_dir : option string) :
  lower u1 = lower u2 →
  Standardize.standardize_chess_com PROJECT_ROOT fs clock u1 raw_dir
  = Standardize.standardize_chess_com PROJECT_ROOT fs clock u2 raw_dir.
Proof. apply ChessMoreFacts.standardize_lower. Qed.

Lemma chess_com_username_case_is_ignored_witness :
  Standardize.standardize_chess_com (H:=Concrete.strict) "/srv" alice_store
    clock_day_100 "Alice" None
  = Standardize.standardize_chess_com (H:=Concrete.strict) "/srv" alice_store
      clock_day_100 "ALICE" None.
Proof.
  apply (chess_com_username_case_is_ignored (H:=Concrete.strict) "/srv" alice_store
           clock_day_100 "Alice" "ALICE" None).
  reflexivity.
Defined.

(** ** The OpenDota and Riot standardizers *)

Module OpenDotaFacts.
Import Py Json Schema Config Standardize StandardizeMore MoreExamples ChessMoreFacts.

Section with_runtime.
Context `{Validation} `{Runtime}.

Lemma get_obj (members : list (string * json)) (k : string) (dflt x : json) :
  get (JObj members) k dflt = Ok x → x = default dflt (obj_get k members).
Proof. by intros [= <-]. Qed.

Lemma get_is_obj (record : json) (k : string) (dflt x : json) :
  get record k dflt = Ok x → ∃ members, record = JObj members.
Proof. destruct record; try discriminate. eauto. Qed.

(** What the body of the OpenDota loop makes of a match. *)
Lemma opendota_activity_shape (account_id : string) (clock : nat → Z) (n n' : nat)
    (match_ : json) (a : PlayerActivity) :
  opendota_activity account_id clock n match_ = Ok (a, n') →
  ∃ is_radiant,
    lt_int (field match_ "player_slot" (JInt 0)) 128 = Ok is_radiant ∧
    (result a = "win" ↔ is_radiant = truthy (field match_ "radiant_win" (JBool false))) ∧
    (result a = "win" ∨ result a = "loss") ∧
    player_id a = account_id ∧ platform a = "opendota" ∧ rating a = None ∧
    game_mode a = str_of (field match_ "game_mode" (JStr "unknown")).
Proof.
  unfold opendota_activity. intros Hbody.
  apply bind_Ok in Hbody as (start_time & Hstart & Hbody).
  destruct (get_is_obj _ _ _ _ Hstart) as [members ->].
  apply bind_Ok in Hbody as ([game_dt n0] & _ & Hbody).
  apply bind_Ok in Hbody as (duration & _ & Hbody).
  apply bind_Ok in Hbody as (player_slot & Hslot & Hbody).
  apply bind_Ok in Hbody as (radiant_win & Hwin & Hbody).
  apply bind_Ok in Hbody as (is_radiant & Hrad & Hbody).
  apply bind_Ok in Hbody as (raw_mode & Hmode & Hbody).
  apply bind_Ok in Hbody as (dur & _ & Hbody).
  apply get_obj in Hslot as ->. apply get_obj in Hwin as ->. apply get_obj in Hmode as ->.
  injection Hbody as <- _. simpl.
  exists is_radiant. split; [exact Hrad|].
  destruct is_radiant, (truthy (default (JBool false) (obj_get "radiant_win" members)));
    simpl; repeat split; auto; discriminate.
Qed.

Lemma opendota_loop_shape (account_id : string) (clock : nat → Z) (matches : list json) :
  ∀ n activities,
    opendota_loop account_id clock n matches = Ok activities →
    length activities = length matches ∧
    Forall (λ a, player_id a = account_id ∧ platform a = "opendota" ∧ rating a = None ∧
                 (result a = "win" ∨ result a = "loss")) activities.
Proof.
  induction matches as [|match_ matches IH]; intros n activities Hloop; simpl in Hloop.
  - injection Hloop as <-. split; [reflexivity | constructor].
  - apply bind_Ok in Hloop as ([a n'] & Ha & Hloop).
    apply bind_Ok in Hloop as (rest & Hrest & Hloop). injection Hloop as <-.
    destruct (IH _ _ Hrest) as [Hlen Hall].
    destruct (opendota_activity_shape _ _ _ _ _ _ Ha) as (r & _ & _ & Hres & Hp & Hpl & Hr & _).
    split; [simpl; by rewrite Hlen | by constructor].
Qed.

Lemma chess_com_loop_length (username : string) (clock : nat → Z) (games : list json) :
  ∀ n activities,
    chess_com_loop username clock n games = Ok activities →
    length activities = length games.
Proof.
  induction games as [|game games IH]; intros n activities Hloop; simpl in Hloop.
  - by injection Hloop as <-.
  - apply bind_Ok in Hloop as ([a n'] & Ha & Hloop).
    apply bind_Ok in Hloop as (rest & Hrest & Hloop). injection Hloop as <-.
    simpl. by rewrite (IH _ _ Hrest).
Qed.

Lemma opendota_loop_pairs (account_id : string) (clock : nat → Z) (matches : list json) :
  ∀ n activities,
    opendota_loop account_id clock n matches = Ok activities →
    Forall2 (λ match_ a, ∃ n n', opendota_activity account_id clock n match_ = Ok (a, n'))
            matches activities.
Proof.
  induction matches as [|match_ matches IH]; intros n activities Hloop; simpl in Hloop.
  - injection Hloop as <-. constructor.
  - apply bind_Ok in Hloop as ([a n'] & Ha & Hloop).
    apply bind_Ok in Hloop as (rest & Hrest & Hloop). injection Hloop as <-.
    constructor; [eauto | by eapply IH].
Qed.

Lemma standardize_opendota_list (PROJECT_ROOT : string) (fs : store) (clock : nat → Z)
    (account_id : string) (raw_dir : option string) (matches : list json) :
  fs !! matches_path PROJECT_ROOT raw_dir account_id = Some (JsonText (JList matches)) →
  standardize_opendota PROJECT_ROOT fs clock account_id raw_dir
  = opendota_loop account_id clock 0 matches.
Proof.
  intros Hfs. unfold standardize_opendota, exists_, _load_json.
  fold (matches_path PROJECT_ROOT raw_dir account_id). rewrite Hfs. reflexivity.
Qed.

Lemma standardize_opendota_shape (PROJECT_ROOT : string) (fs : store) (clock : nat → Z)
    (account_id : string) (raw_dir : option string) (activities : list PlayerActivity) :
  standardize_opendota PROJECT_ROOT fs clock account_id raw_dir = Ok activities →
  Forall (λ a, player_id a = account_id ∧ platform a = "opendota" ∧ rating a = None ∧
               (result a = "win" ∨ result a = "loss")) activities.
Proof.
  unfold standardize_opendota.
  destruct (negb _); [intros [= <-]; constructor|].
  intros Hstd. apply bind_Ok in Hstd as (matches & _ & Hstd).
  apply bind_Ok in Hstd as (items & _ & Hstd).
  by destruct (opendota_loop_shape _ _ _ _ _ Hstd).
Qed.

End with_runtime.

End OpenDotaFacts.

Lemma chess_com_activities_are_normalized_witness :
  Forall (λ a, player_id a = lower "Alice" ∧ platform a = "chess_com" ∧
               duration_seconds a = 0 ∧
               (result a = "win" ∨ result a = "loss" ∨ result a = "draw"))
         MoreExamples.alice_activities.
Proof.
  apply (chess_com_activities_are_normalized (H:=Concrete.strict) "/srv" alice_store
           clock_day_100 "Alice" None MoreExamples.alice_activities).
  vm_compute. reflexivity.
Defined.

(** X14. [standardize_chess_com] never drops a record: when the raw file is
    a list and the call returns, it returns exactly one activity per record
    of the file. *)
Theorem chess_com_one_activity_per_record `{Validation} (PROJECT_ROOT : string)
    (fs : store) (clock : nat → Z) (username : string) (raw_dir : option string)
    (games : list json) (activities : list PlayerActivity) :
  fs !! ChessWording.games_path PROJECT_ROOT raw_dir username
    = Some (JsonText (JList games)) →
  Standardize.standardize_chess_com PROJECT_ROOT fs clock username raw_dir = Ok activities →
  length activities = length games.
Proof.
  intros Hfs. rewrite (ChessFacts.standardize_list _ _ _ _ _ games Hfs).
  apply OpenDotaFacts.chess_com_loop_length.
Qed.

Lemma chess_com_one_activity_per_record_witness :
  length MoreExamples.alice_activities
  = length [game_with_end_time; game_without_end_time].
Proof.
  apply (chess_com_one_activity_per_record (H:=Concrete.strict) "/srv" alice_store
           clock_day_100 "Alice" None [game_with_end_time; game_without_end_time]
           MoreExamples.alice_activities).
  - reflexivity.
  - vm_compute. reflexivity.
Defined.

(** X15. Every activity that [standardize_opendota] returns carries the
    account id as it was given, the platform [opendota], no rating and the
    result win or loss: an OpenDota match is never a draw. *)
Theorem opendota_activities_are_normalized `{Validation} `{StandardizeMore.Runtime}
    (PROJECT_ROOT : string) (fs : store) (clock : nat → Z) (account_id : string)
    (raw_dir : option string) (activities : list PlayerActivity) :
  StandardizeMore.standardize_opendota PROJECT_ROOT fs clock account_id raw_dir
    = Ok activities →
  Forall (λ a, player_id a = account_id ∧ platform a = "opendota" ∧ rating a = None ∧
               (result a = "win" ∨ result a = "loss")) activities.
Proof. apply OpenDotaFacts.standardize_opendota_shape. Qed.

Lemma opendota_activities_are_normalized_witness :
  Forall (λ a, player_id a = "77" ∧ platform a = "opendota" ∧ rating a = None ∧
               (result a = "win" ∨ result a = "loss")) MoreExamples.dota_activities.
Proof.
  apply (opendota_activities_are_normalized (H:=Concrete.strict)
           (H0:=ConcreteRuntime.example) "/srv" MoreExamples.dota_store clock_day_100
           "77" None MoreExamples.dota_activities).
  vm_compute. reflexivity.
Defined.

(** X16. When the raw file is a list and [standardize_opendota] returns, it
    returns one activity per match, in order, and the activity is a win
    exactly when "the player's slot is below 128" and "radiant_win is true"
    agree: a match whose record lacks [radiant_win] is a loss from a radiant
    slot and a win from a dire slot. The game mode is [str] of the record's
    [game_mode]. *)
Theorem opendota_result_rule `{Validation} `{StandardizeMore.Runtime}
    (PROJECT_ROOT : string) (fs : store) (clock : nat → Z) (account_id : string)
    (raw_dir : option string) (matches : list json) (activities : list PlayerActivity) :
  fs !! MoreExamples.matches_path PROJECT_ROOT raw_dir account_id
    = Some (JsonText (JList matches)) →
  StandardizeMore.standardize_opendota PROJECT_ROOT fs clock account_id raw_dir
    = Ok activities →
  Forall2 (λ match_ a,
             ∃ is_radiant,
               StandardizeMore.lt_int (MoreExamples.field match_ "player_slot" (JInt 0)) 128
                 = Ok is_radiant ∧
               (result a = "win" ↔
                is_radiant = truthy (MoreExamples.field match_ "radiant_win" (JBool false))) ∧
               game_mode a
               = StandardizeMore.str_of
                   (MoreExamples.field match_ "game_mode" (JStr "unknown")))
          matches activities.
Proof.
  intros Hfs. rewrite (OpenDotaFacts.standardize_opendota_list _ _ _ _ _ matches Hfs).
  intros Hloop. apply OpenDotaFacts.opendota_loop_pairs in Hloop.
  eapply Forall2_impl; [exact Hloop|].
  intros match_ a (n & n' & Ha). simpl in Ha.
  destruct (OpenDotaFacts.opendota_activity_shape _ _ _ _ _ _ Ha)
    as (r & Hr & Hiff & _ & _ & _ & _ & Hmode).
  eauto.
Qed.

Lemma opendota_result_rule_witness :
  Forall2 (λ match_ a,
             ∃ is_radiant,
               StandardizeMore.lt_int (MoreExamples.field match_ "player_slot" (JInt 0)) 128
                 = Ok is_radiant ∧
               (result a = "win" ↔
                is_radiant = truthy (MoreExamples.field match_ "radiant_win" (JBool false))) ∧
               game_mode a
               = StandardizeMore.str_of (Runtime:=ConcreteRuntime.example)
                   (MoreExamples.field match_ "game_mode" (JStr "unknown")))
          [MoreExamples.dire_win; MoreExamples.no_winner] MoreExamples.dota_activities.
Proof.
  apply (opendota_result_rule (H:=Concrete.strict) (H0:=ConcreteRuntime.example)
           "/srv" MoreExamples.dota_store clock_day_100 "77" None).
  - reflexivity.
  - vm_compute. reflexivity.
Defined.

Module RiotFacts.
Import Py Json Schema Config Standardize StandardizeMore MoreExamples RiotWording
  ChessMoreFacts OpenDotaFacts.

Section with_runtime.
Context `{Validation} `{Runtime}.

(** What the body of the Riot loop makes of a match it does not skip. *)
Lemma riot_activity_shape (safe_name : string) (puuid match_ : json) (a : PlayerActivity) :
  riot_activity safe_name puuid match_ = Ok (Some a) →
  player_id a = safe_name ∧ platform a = "riot_lol" ∧ rating a = None ∧
  (result a = "win" ∨ result a = "loss") ∧
  (field (field match_ "info" (JObj [])) "gameCreation" (JInt 0) = JInt 0 →
   game_timestamp a = 0).
Proof.
  unfold riot_activity. intros Hbody.
  apply bind_Ok in Hbody as (info & Hinfo & Hbody).
  destruct (get_is_obj _ _ _ _ Hinfo) as [members ->]. apply get_obj in Hinfo as ->.
  apply bind_Ok in Hbody as (created & Hcreated & Hbody).
  destruct (get_is_obj _ _ _ _ Hcreated) as [imembers Hi].
  simpl field. rewrite Hi in *. apply get_obj in Hcreated as ->.
  apply bind_Ok in Hbody as (seconds & Hsec & Hbody).
  apply bind_Ok in Hbody as (game_dt & Hdt & Hbody).
  apply bind_Ok in Hbody as (duration & _ & Hbody).
  apply bind_Ok in Hbody as (participants & _ & Hbody).
  apply bind_Ok in Hbody as (candidates & _ & Hbody).
  apply bind_Ok in Hbody as ([player_data|] & _ & Hbody); [|discriminate].
  apply bind_Ok in Hbody as (win & _ & Hbody).
  apply bind_Ok in Hbody as (raw_mode & _ & Hbody).
  apply bind_Ok in Hbody as (dur & _ & Hbody).
  apply bind_Ok in Hbody as (mode & _ & Hbody).
  injection Hbody as <-. simpl.
  repeat split; [destruct (truthy win); auto|].
  intros Hzero. simpl in Hzero. rewrite Hzero in Hsec. injection Hsec as <-.
  vm_compute in Hdt. by injection Hdt as <-.
Qed.

Lemma riot_loop_shape (safe_name : string) (puuid : json) (matches : list json) :
  ∀ activities,
    riot_loop safe_name puuid matches = Ok activities →
    (length activities <= length matches)%nat ∧
    Forall (λ a, player_id a = safe_name ∧ platform a = "riot_lol" ∧ rating a = None ∧
                 (result a = "win" ∨ result a = "loss")) activities.
Proof.
  induction matches as [|match_ matches IH]; intros activities Hloop; simpl in Hloop.
  - injection Hloop as <-. split; [reflexivity | constructor].
  - apply bind_Ok in Hloop as (a & Ha & Hloop).
    apply bind_Ok in Hloop as (rest & Hrest & Hloop). injection Hloop as <-.
    destruct (IH _ Hrest) as [Hlen Hall].
    destruct a as [a|]; [|split; [simpl; lia | exact Hall]].
    destruct (riot_activity_shape _ _ _ _ Ha) as (Hp & Hpl & Hr & Hres & _).
    split; [simpl; lia | by constructor].
Qed.

Lemma standardize_riot_missing (PROJECT_ROOT : string) (fs : store)
    (game_name tag_line : string) (raw_dir : option string) :
  fs !! riot_matches_path PROJECT_ROOT raw_dir game_name tag_line = None ∨
  fs !! riot_account_path PROJECT_ROOT raw_dir game_name tag_line = None →
  standardize_riot PROJECT_ROOT fs game_name tag_line raw_dir = Ok [].
Proof.
  intros Hmissing. unfold standardize_riot, exists_.
  fold (riot_safe_name game_name tag_line).
  fold (riot_matches_path PROJECT_ROOT raw_dir game_name tag_line).
  fold (riot_account_path PROJECT_ROOT raw_dir game_name tag_line).
  destruct Hmissing as [-> | ->]; [reflexivity|].
  by destruct (negb _).
Qed.

Lemma standardize_riot_files (PROJECT_ROOT : string) (fs : store)
    (game_name tag_line : string) (raw_dir : option string)
    (account : list (string * json)) (matches : list json) :
  fs !! riot_account_path PROJECT_ROOT raw_dir game_name tag_line
    = Some (JsonText (JObj account)) →
  fs !! riot_matches_path PROJECT_ROOT raw_dir game_name tag_line
    = Some (JsonText (JList matches)) →
  standardize_riot PROJECT_ROOT fs game_name tag_line raw_dir
  = riot_loop (riot_safe_name game_name tag_line)
      (default (JStr "") (obj_get "puuid" account)) matches.
Proof.
  intros Hacc Hmat. unfold standardize_riot, exists_, _load_json.
  fold (riot_safe_name game_name tag_line).
  fold (riot_matches_path PROJECT_ROOT raw_dir game_name tag_line).
  fold (riot_account_path PROJECT_ROOT raw_dir game_name tag_line).
  rewrite Hacc, Hmat. reflexivity.
Qed.

Lemma standardize_riot_shape (PROJECT_ROOT : string) (fs : store)
    (game_name tag_line : string) (raw_dir : option string)
    (activities : list PlayerActivity) :
  standardize_riot PROJECT_ROOT fs game_name tag_line raw_dir = Ok activities →
  Forall (λ a, player_id a = riot_safe_name game_name tag_line ∧ platform a = "riot_lol" ∧
               rating a = None ∧ (result a = "win" ∨ result a = "loss")) activities.
Proof.
  unfold standardize_riot. fold (riot_safe_name game_name tag_line).
  destruct (_ || _); [intros [= <-]; constructor|].
  intros Hstd. apply bind_Ok in Hstd as (account & _ & Hstd).
  apply bind_Ok in Hstd as (puuid & _ & Hstd).
  apply bind_Ok in Hstd as (matches & _ & Hstd).
  apply bind_Ok in Hstd as (items & _ & Hstd).
  by destruct (riot_loop_shape _ _ _ _ Hstd).
Qed.

End with_runtime.

Section with_laws.
Context `{Validation} `{RuntimeLaws}.

Lemma find_participant_foreign (me : string) (participants : list json) :
  Forall (other_player me) participants →
  find_participant (JStr me) participants = Ok None.
Proof.
  induction 1 as [|p participants (members & -> & Hp) _ IH]; [reflexivity|].
  simpl. destruct Hp as [-> | (s & -> & Hs)]; simpl.
  - by rewrite py_eq_null_str.
  - rewrite py_eq_str. apply String.eqb_neq in Hs. by rewrite Hs.
Qed.

Lemma riot_activity_foreign (safe_name me : string) (match_ : json) :
  foreign_to me match_ → riot_activity safe_name (JStr me) match_ = Ok None.
Proof.
  intros (members & info & participants & seconds & dt & -> & Hinfo & Hsec & Hdt
          & Hps & Hall).
  unfold riot_activity, get. rewrite Hinfo.
  cbn [mbind pyresult_bind bind mret pyresult_ret].
  rewrite Hsec. cbn [mbind pyresult_bind bind mret pyresult_ret].
  rewrite Hdt. cbn [mbind pyresult_bind bind mret pyresult_ret].
  rewrite Hps. cbn [iterate mbind pyresult_bind bind mret pyresult_ret].
  by rewrite (find_participant_foreign me participants Hall).
Qed.

Lemma riot_loop_foreign (safe_name me : string) (matches : list json) :
  Forall (foreign_to me) matches → riot_loop safe_name (JStr me) matches = Ok [].
Proof.
  induction 1 as [|match_ matches Hm _ IH]; [reflexivity|].
  simpl. rewrite (riot_activity_foreign safe_name me match_ Hm). simpl.
  by rewrite IH.
Qed.

End with_laws.

(** The example runtime obeys the laws. *)
#[export] Instance example_laws : @RuntimeLaws ConcreteRuntime.example.
Proof. split; reflexivity. Qed.

End RiotFacts.

(** X17. [standardize_riot] returns an empty list as soon as one of the
    player's two raw files is missing, the matches file or the account file,
    whatever the other one holds: it is not even read. *)
Theorem riot_missing_file_is_empty `{Validation} `{StandardizeMore.Runtime}
    (PROJECT_ROOT : string) (fs : store) (game_name tag_line : string)
    (raw_dir : option string) :
  fs !! MoreExamples.riot_matches_path PROJECT_ROOT raw_dir game_name tag_line = None ∨
  fs !! MoreExamples.riot_account_path PROJECT_ROOT raw_dir game_name tag_line = None →
  StandardizeMore.standardize_riot PROJECT_ROOT fs game_name tag_line raw_dir = Ok [].
Proof. apply RiotFacts.standardize_riot_missing. Qed.

Lemma riot_missing_file_is_empty_witness :
  StandardizeMore.standardize_riot (H:=Concrete.strict) (H0:=ConcreteRuntime.example)
    "/srv"
    (<["/srv/data/01_raw/riot_lol/faker_kr1_matches.json" := NotJson "[{"]>
       (delete "/srv/data/01_raw/riot_lol/faker_kr1_account.json" MoreExamples.riot_store))
    "Faker" "KR1" None = Ok [].
Proof.
  apply (riot_missing_file_is_empty (H:=Concrete.strict) (H0:=ConcreteRuntime.example)
           "/srv" _ "Faker" "KR1" None).
  right. reflexivity.
Defined.

(** X18. Every activity that [standardize_riot] returns carries the
    lower-cased [name_tag] as [player_id], the platform [riot_lol], no rating
    and the result win or loss; and when the matches file is a list it
    returns at most one activity per match. *)
Theorem riot_activities_are_normalized `{Validation} `{StandardizeMore.Runtime}
    (PROJECT_ROOT : string) (fs : store) (game_name tag_line : string)
    (raw_dir : option string) (activities : list PlayerActivity) :
  StandardizeMore.standardize_riot PROJECT_ROOT fs game_name tag_line raw_dir
    = Ok activities →
  Forall (λ a, player_id a = lower (game_name +:+ "_" +:+ tag_line) ∧
               platform a = "riot_lol" ∧ rating a = None ∧
               (result a = "win" ∨ result a = "loss")) activities ∧
  ∀ account matches,
    fs !! MoreExamples.riot_account_path PROJECT_ROOT raw_dir game_name tag_line
      = Some (JsonText (JObj account)) →
    fs !! MoreExamples.riot_matches_path PROJECT_ROOT raw_dir game_name tag_line
      = Some (JsonText (JList matches)) →
    (length activities <= length matches)%nat.
Proof.
  intros Hstd. split; [exact (RiotFacts.standardize_riot_shape _ _ _ _ _ _ Hstd)|].
  intros account matches Hacc Hmat.
  rewrite (RiotFacts.standardize_riot_files _ _ _ _ _ account matches Hacc Hmat) in Hstd.
  by destruct (RiotFacts.riot_loop_shape _ _ _ _ Hstd).
Qed.

Lemma riot_activities_are_normalized_witness :
  Forall (λ a, player_id a = lower ("Faker" +:+ "_" +:+ "KR1") ∧
               platform a = "riot_lol" ∧ rating a = None ∧
               (result a = "win" ∨ result a = "loss")) RiotExamples.faker_activities ∧
  ∀ account matches,
    MoreExamples.riot_store !! MoreExamples.riot_account_path "/srv" None "Faker" "KR1"
      = Some (JsonText (JObj account)) →
    MoreExamples.riot_store !! MoreExamples.riot_matches_path "/srv" None "Faker" "KR1"
      = Some (JsonText (JList matches)) →
    (length RiotExamples.faker_activities <= length matches)%nat.
Proof.
  apply (riot_activities_are_normalized (H:=Concrete.strict)
           (H0:=ConcreteRuntime.example) "/srv" MoreExamples.riot_store "Faker" "KR1" None).
  vm_compute. reflexivity.
Defined.

(** X19. A match in whose participants the player's puuid does not occur is
    skipped without an error: when every match of the file is such a match,
    [standardize_riot] returns the empty list. *)
Theorem riot_foreign_matches_are_skipped `{Validation} `{StandardizeMore.RuntimeLaws}
    (PROJECT_ROOT : string) (fs : store) (game_name tag_line : string)
    (raw_dir : option string) (account : list (string * json)) (me : string)
    (matches : list json) :
  fs !! MoreExamples.riot_account_path PROJECT_ROOT raw_dir game_name tag_line
    = Some (JsonText (JObj account)) →
  default (JStr "") (obj_get "puuid" account) = JStr me →
  fs !! MoreExamples.riot_matches_path PROJECT_ROOT raw_dir game_name tag_line
    = Some (JsonText (JList matches)) →
  Forall (RiotWording.foreign_to me) matches →
  StandardizeMore.standardize_riot PROJECT_ROOT fs game_name tag_line raw_dir = Ok [].
Proof.
  intros Hacc Hme Hmat Hall.
  rewrite (RiotFacts.standardize_riot_files _ _ _ _ _ account matches Hacc Hmat), Hme.
  by apply RiotFacts.riot_loop_foreign.
Qed.

Lemma riot_foreign_matches_are_skipped_witness :
  StandardizeMore.standardize_riot (H:=Concrete.strict) (H0:=ConcreteRuntime.example)
    "/srv" RiotExamples.foreign_store "Faker" "KR1" None = Ok [].
Proof.
  apply (riot_foreign_matches_are_skipped (H:=Concrete.strict)
           (H0:=ConcreteRuntime.example) (H1:=RiotFacts.example_laws)
           "/srv" RiotExamples.foreign_store "Faker" "KR1" None
           [("puuid", JStr "abc"); ("gameName", JStr "Faker")] "abc"
           [MoreExamples.foreign_match]).
  - reflexivity.
  - reflexivity.
  - reflexivity.
  - constructor; [|constructor].
    eexists _, _, _, _, _. split; [reflexivity|]. split; [reflexivity|].
    split; [reflexivity|]. split; [reflexivity|]. split; [reflexivity|].
    constructor; [|constructor].
    eexists. split; [reflexivity|]. right. eexists. split; [reflexivity | discriminate].
Defined.

(** X20. A League match without a [gameCreation] (or with 0) that is not
    skipped is dated 1970-01-01T00:00:00Z: unlike the Chess.com and OpenDota
    standardizers, the Riot one does not fall back to the current time. *)
Theorem riot_undated_match_is_epoch `{Validation} `{StandardizeMore.Runtime}
    (safe_name : string) (puuid match_ : json) (a : PlayerActivity) :
  StandardizeMore.riot_activity safe_name puuid match_ = Ok (Some a) →
  MoreExamples.field (MoreExamples.field match_ "info" (JObj [])) "gameCreation" (JInt 0)
    = JInt 0 →
  game_timestamp a = 0.
Proof.
  intros Ha. by destruct (RiotFacts.riot_activity_shape _ _ _ _ Ha) as (_ & _ & _ & _ & Hts).
Qed.

Lemma riot_undated_match_is_epoch_witness :
  game_timestamp RiotExamples.undated_activity = 0.
Proof.
  apply (riot_undated_match_is_epoch (H:=Concrete.strict) (H0:=ConcreteRuntime.example)
           "faker_kr1" (JStr "abc") MoreExamples.undated_match
           RiotExamples.undated_activity); reflexivity.
Defined.

(** ** How the calculators compose *)

Module ComposeFacts.
Import Py Json Schema Config Engineer Wording FeatureKeys SnapshotFacts.

Lemma keys_apart :
  (window_keys ## trend_keys) ∧ (window_keys ## performance_keys) ∧
  (window_keys ## social_keys) ∧ (window_keys ## churn_keys) ∧
  (performance_keys ## social_keys) ∧ (performance_keys ## churn_keys) ∧
  ("engagement_score" ∉ window_keys) ∧ ("engagement_score" ∉ performance_keys) ∧
  ("engagement_score" ∉ churn_keys).
Proof.
  repeat split; refine (bool_decide_unpack _ _); vm_compute; exact I.
Qed.

Lemma apart (A B : gset string) (k : string) : A ## B → k ∈ A → k ∉ B.
Proof. intros HAB Hk Hk'. exact (HAB k Hk Hk'). Qed.

Lemma trend_keys_elem (k : string) :
  k ∈ trend_keys ↔ k = "games_trend_7d_vs_14d" ∨ k = "playtime_trend_7d_vs_14d".
Proof. unfold trend_keys. simpl. set_solver. Qed.

Lemma social_keys_elem (k : string) :
  k ∈ social_keys ↔ k = "unique_peers_30d" ∨ k = "peer_games_30d".
Proof. unfold social_keys. simpl. set_solver. Qed.

(** The keys of the aggregator, of the performance calculator and of the
    labeler arrive in the row as these calculators returned them. *)
Lemma build_keeps_calculator_keys sort_by (PROJECT_ROOT : string) (settings : Settings)
    (fs : store) (clock : nat → Z) (df : list PlayerActivity) (pid plat : string)
    (reference_date : option Z) (raw_dir : option string) (f : gmap string value) :
  build_features_for_player sort_by PROJECT_ROOT settings fs clock df pid plat
    reference_date raw_dir = Ok f →
  (∀ k, k ∈ window_keys →
        f !! k = compute_time_window_features sort_by (clock 0%nat) df pid plat
                   reference_date !! k) ∧
  (∀ k, k ∈ performance_keys →
        f !! k = compute_performance_features sort_by (clock 1%nat) df pid plat
                   reference_date !! k) ∧
  (∀ k, k ∈ churn_keys →
        f !! k = compute_churn_label settings (clock 2%nat) df pid plat reference_date !! k).
Proof.
  destruct keys_apart as (Hwt & Hwp & Hws & Hwc & Hps & Hpc & Hew & Hep & Hec).
  unfold build_features_for_player. intros Hbuild.
  pose proof (ShapeFacts.time_window_features_keys_aux sort_by (clock 0%nat) df pid plat
                reference_date) as HdomW.
  pose proof (PerformanceFacts.performance_features_keys_aux sort_by (clock 1%nat) df pid
                plat reference_date) as HdomP.
  pose proof (churn_label_keys settings (clock 2%nat) df pid plat reference_date) as HdomC.
  set (F0 := compute_time_window_features sort_by (clock 0%nat) df pid plat reference_date)
    in *.
  set (P := compute_performance_features sort_by (clock 1%nat) df pid plat reference_date)
    in *.
  set (C := compute_churn_label settings (clock 2%nat) df pid plat reference_date) in *.
  apply ChessMoreFacts.bind_Ok in Hbuild as (F1 & Htrend & Hbuild).
  apply ChessMoreFacts.bind_Ok in Hbuild as (F3 & Hsocial & Hbuild).
  apply ChessMoreFacts.bind_Ok in Hbuild as (score & _ & Hbuild).
  injection Hbuild as <-.
  assert (∀ k, k ∉ trend_keys → F1 !! k = F0 !! k) as HF1.
  { intros k Hk. unfold compute_trend_features in Htrend.
    apply ChessMoreFacts.bind_Ok in Htrend as (t1 & _ & Htrend).
    apply ChessMoreFacts.bind_Ok in Htrend as (t2 & _ & Htrend).
    injection Htrend as <-. rewrite trend_keys_elem in Hk.
    rewrite !lookup_insert_ne by naive_solver. reflexivity. }
  assert (∀ k, k ∉ social_keys → F3 !! k = update F1 P !! k) as HF3.
  { intros k Hk. rewrite social_keys_elem in Hk.
    destruct (String.eqb plat "opendota").
    - apply ChessMoreFacts.bind_Ok in Hsocial as (social & Hs & Hsocial).
      injection Hsocial as <-.
      destruct (social_features_shape _ _ _ _ _ Hs) as [Hdoms _].
      apply (lookup_update_old _ _ _ _ Hdoms). by rewrite social_keys_elem.
    - injection Hsocial as <-. rewrite !lookup_insert_ne by naive_solver. reflexivity. }
  split; [|split].
  - intros k Hk.
    rewrite (lookup_update_old _ _ _ _ HdomC) by exact (apart _ _ _ Hwc Hk).
    rewrite lookup_insert_ne by (intros <-; exact (Hew Hk)).
    rewrite HF3 by exact (apart _ _ _ Hws Hk).
    rewrite (lookup_update_old _ _ _ _ HdomP) by exact (apart _ _ _ Hwp Hk).
    apply HF1. exact (apart _ _ _ Hwt Hk).
  - intros k Hk.
    rewrite (lookup_update_old _ _ _ _ HdomC) by exact (apart _ _ _ Hpc Hk).
    rewrite lookup_insert_ne by (intros <-; exact (Hep Hk)).
    rewrite HF3 by exact (apart _ _ _ Hps Hk).
    unfold update. rewrite <- HdomP in Hk. apply elem_of_dom in Hk as [v Hv].
    rewrite Hv. by apply lookup_union_Some_l.
  - intros k Hk. unfold update. rewrite <- HdomC in Hk. apply elem_of_dom in Hk as [v Hv].
    rewrite Hv. by apply lookup_union_Some_l.
Qed.

End ComposeFacts.

(** X21. In a row that [build_features_for_player] returns, the keys of the
    windowed aggregator, of the performance calculator and of the churn
    labeler hold what these calculators returned: no later [update] or
    assignment overwrites them. *)
Theorem build_keeps_calculator_outputs sort_by (PROJECT_ROOT : string)
    (settings : Settings) (fs : store) (clock : nat → Z) (df : list PlayerActivity)
    (pid plat : string) (reference_date : option Z) (raw_dir : option string)
    (f : gmap string value) :
  build_features_for_player sort_by PROJECT_ROOT settings fs clock df pid plat
    reference_date raw_dir = Ok f →
  (∀ k, k ∈ FeatureKeys.window_keys →
        f !! k = compute_time_window_features sort_by (clock 0%nat) df pid plat
                   reference_date !! k) ∧
  (∀ k, k ∈ FeatureKeys.performance_keys →
        f !! k = compute_performance_features sort_by (clock 1%nat) df pid plat
                   reference_date !! k) ∧
  (∀ k, k ∈ FeatureKeys.churn_keys →
        f !! k = compute_churn_label settings (clock 2%nat) df pid plat reference_date !! k).
Proof. apply ComposeFacts.build_keeps_calculator_keys. Qed.

Lemma build_keeps_calculator_outputs_witness :
  build_features_for_player Concrete.stable_sort_by "/srv" default_settings peers_store
    clock_day_100 two_games "p" "chess_com" None None = Ok RowExamples.two_games_row ∧
  (∀ k, k ∈ FeatureKeys.window_keys →
        RowExamples.two_games_row !! k
        = compute_time_window_features Concrete.stable_sort_by (clock_day_100 0%nat)
            two_games "p" "chess_com" None !! k) ∧
  (∀ k, k ∈ FeatureKeys.performance_keys →
        RowExamples.two_games_row !! k
        = compute_performance_features Concrete.stable_sort_by (clock_day_100 1%nat)
            two_games "p" "chess_com" None !! k) ∧
  (∀ k, k ∈ FeatureKeys.churn_keys →
        RowExamples.two_games_row !! k
        = compute_churn_label default_settings (clock_day_100 2%nat) two_games "p"
            "chess_com" None !! k).
Proof.
  assert (Hrow : build_features_for_player Concrete.stable_sort_by "/srv" default_settings
                   peers_store clock_day_100 two_games "p" "chess_com" None None
                 = Ok RowExamples.two_games_row) by reflexivity.
  split; [exact Hrow|].
  exact (build_keeps_calculator_outputs Concrete.stable_sort_by "/srv" default_settings
           peers_store clock_day_100 two_games "p" "chess_com" None None
           RowExamples.two_games_row Hrow).
Defined.
